(** * Gallery generation: a shallow embedding of scripts/generate-gallery-lib.ts

    The development follows the TypeScript source function by function:
    [parseExtensionRelease], [buildExtensions], [collectTagsAndFeatures] and
    [buildOutput], over the interfaces of scripts/types/index.ts.

    Conventions.
    - A JavaScript string is a [string]; one character stands for one code
      unit, so the model covers strings over the first 256 code units.  The
      string operations used by the source ([startsWith], [split], [===])
      only look at the sequence of code units.
    - [null] / [undefined] results are [None]; an optional property that is
      left out of an object literal is [None] as well.
    - A [Map] is the list of its entries in insertion order, a [Set] the list
      of its members in insertion order: both are iterated in that order by
      the source, and the stable sorts that follow can observe it.
    - What the source takes from outside the repository ([JSON.parse], the
      npm package semver, [String.prototype.localeCompare]) is the
      [Runtime] interface below. *)

From Stdlib Require Import List String Ascii ZArith Bool Arith Lia.
From Stdlib Require Import Sorted Permutation OrderedTypeEx.
From Stdlib Require Import SpecFloat.
Import ListNotations.

Set Warnings "-register-all".

Local Open Scope string_scope.
Local Open Scope list_scope.

(** ** JavaScript strings *)

(** [s.startsWith(p)]. *)
Definition startsWith (s p : string) : bool := String.prefix p s.

(** [s] without its first [n] code units. *)
Fixpoint drop (n : nat) (s : string) : string :=
  match n, s with
  | O, _ => s
  | S _, EmptyString => EmptyString
  | S k, String _ s' => drop k s'
  end.

(** The scan behind [s.split(sep)] for a non-empty separator: the text before
    the next separator and the pieces after it.  [skip] counts the code units
    of an already matched separator that are still to be passed over. *)
Fixpoint pieces (sep : string) (skip : nat) (s : string) : string * list string :=
  match s with
  | EmptyString => (EmptyString, [])
  | String c s' =>
      match skip with
      | S k => pieces sep k s'
      | O =>
          if String.prefix sep s
          then (EmptyString,
                let (p, ps) := pieces sep (String.length sep - 1) s' in p :: ps)
          else let (p, ps) := pieces sep 0 s' in (String c p, ps)
      end
  end.

(** [s.split(sep)], for a non-empty [sep]. *)
Definition split (sep s : string) : list string :=
  let (p, ps) := pieces sep 0 s in p :: ps.

(** The first occurrence of [sep] in [s]: the text before it and everything
    after it, or [None] when [sep] does not occur. *)
Fixpoint cut (sep s : string) : option (string * string) :=
  if String.prefix sep s then Some (EmptyString, drop (String.length sep) s)
  else match s with
       | EmptyString => None
       | String c s' =>
           match cut sep s' with
           | Some (b, a) => Some (String c b, a)
           | None => None
           end
       end.

(** Everything after the first occurrence of [sep] in [s]. *)
Definition afterFirst (sep s : string) : option string :=
  option_map snd (cut sep s).

(** The text of [s] up to its first occurrence of [sep], all of [s] when there
    is none. *)
Definition upToFirst (sep s : string) : string :=
  match cut sep s with
  | Some (b, _) => b
  | None => s
  end.

(** ** Arrays *)

(** A three-way comparison as the number a comparator returns. *)
Definition comparisonZ (c : comparison) : Z :=
  match c with
  | Lt => (-1)%Z
  | Eq => 0%Z
  | Gt => 1%Z
  end.


(** [Array.prototype.sort] with a comparator is stable; for a consistent
    comparator the result is the one sorted arrangement that keeps equal
    elements in their input order, which insertion from the right builds. *)
Fixpoint insertBy {A : Type} (cmp : A -> A -> Z) (x : A) (l : list A) : list A :=
  match l with
  | [] => [x]
  | y :: l' => if (cmp x y <=? 0)%Z then x :: l else y :: insertBy cmp x l'
  end.

Definition sortBy {A : Type} (cmp : A -> A -> Z) (l : list A) : list A :=
  fold_right (insertBy cmp) [] l.

(** ** JavaScript values

    The values [JSON.parse] can return.  Numbers are IEEE 754 doubles. *)
Inductive value : Type :=
| VNull
| VBool (b : bool)
| VNum (x : spec_float)
| VStr (s : string)
| VArr (items : list value)
| VObj (props : list (string * value)).

(** ToBoolean. *)
Definition truthy (v : value) : bool :=
  match v with
  | VNull => false
  | VBool b => b
  | VNum (S754_zero _) | VNum S754_nan => false
  | VNum _ => true
  | VStr s => negb (s =? EmptyString)
  | VArr _ | VObj _ => true
  end.

(** An own property of an object, by key. *)
Fixpoint lookup (key : string) (props : list (string * value)) : option value :=
  match props with
  | [] => None
  | (k, v) :: rest => if k =? key then Some v else lookup key rest
  end.

(** [metadata?.key] for the three keys the source reads from a parsed body
    ([minimumConnectVersion], [requiredFeatures], [requiredEnvironment]):
    [undefined] on [null], and [undefined] on a boolean, number, string or
    array, none of which has a property of such a name. *)
Definition field (metadata : value) (key : string) : option value :=
  match metadata with
  | VObj props => lookup key props
  | _ => None
  end.

(** Truthiness of [x?.length]: a string or an array has as length its number
    of elements, an object whatever its own [length] property holds, and
    [null], booleans and numbers have none. *)
Definition lengthTruthy (x : value) : bool :=
  match x with
  | VStr s => negb (s =? EmptyString)
  | VArr items => match items with [] => false | _ :: _ => true end
  | VObj props =>
      match lookup "length" props with
      | Some n => truthy n
      | None => false
      end
  | VNull | VBool _ | VNum _ => false
  end.

(** ** scripts/types/index.ts *)

Module Category.
Record t := { id : string; title : string; description : string }.
End Category.

Module GalleryConfig.
Record t := { categories : list Category.t }.
End GalleryConfig.

Module LanguageRequirement.
Record t := { requires : string }.
End LanguageRequirement.

Module ExtensionEnvironment.
Record t := {
  python : option LanguageRequirement.t;
  r : option LanguageRequirement.t;
  quarto : option LanguageRequirement.t }.
End ExtensionEnvironment.

(** The [extension] object of a manifest. *)
Module ExtensionInfo.
Record t := {
  name : string;
  title : string;
  description : string;
  homepage : string;
  version : string;
  minimumConnectVersion : string;
  requiredFeatures : option (list string);
  category : option string;
  tags : option (list string) }.
End ExtensionInfo.

Module ExtensionManifest.
Record t := {
  extension : ExtensionInfo.t;
  environment : option ExtensionEnvironment.t }.
End ExtensionManifest.

(** The three fields that may come from a release body hold whatever value
    the body carried: the body is parsed at run time and not checked against
    [ReleaseMetadata]. *)
Module ExtensionVersion.
Record t := {
  version : string;
  released : string;
  url : string;
  minimumConnectVersion : value;
  requiredFeatures : option value;
  requiredEnvironment : option value }.
End ExtensionVersion.

Module Extension.
Record t := {
  name : string;
  title : string;
  description : string;
  homepage : string;
  latestVersion : ExtensionVersion.t;
  versions : list ExtensionVersion.t;
  tags : list string;
  category : option string }.
End Extension.

Module GitHubReleaseAsset.
Record t := { name : string; url : string }.
End GitHubReleaseAsset.

Module GitHubRelease.
Record t := {
  tagName : string;
  publishedAt : string;
  assets : list GitHubReleaseAsset.t;
  body : string }.
End GitHubRelease.

Module ApiAsset.
Record t := { name : string; browser_download_url : string }.
End ApiAsset.

Module GitHubApiRelease.
Record t := {
  tag_name : string;
  published_at : string;
  assets : list ApiAsset.t;
  body : string }.
End GitHubApiRelease.

(** Manifest data as the JavaScript values they are once loaded. *)
Definition requirementValue (q : LanguageRequirement.t) : value :=
  VObj [("requires", VStr (LanguageRequirement.requires q))].

Definition optionalProp (key : string) (q : option LanguageRequirement.t)
  : list (string * value) :=
  match q with
  | Some x => [(key, requirementValue x)]
  | None => []
  end.

Definition environmentValue (e : ExtensionEnvironment.t) : value :=
  VObj (optionalProp "python" (ExtensionEnvironment.python e)
        ++ optionalProp "r" (ExtensionEnvironment.r e)
        ++ optionalProp "quarto" (ExtensionEnvironment.quarto e)).

Definition featuresValue (fs : list string) : value := VArr (map VStr fs).

(** ** What the source imports from outside the repository *)

Class Runtime := {
  (** [JSON.parse]; [None] when it throws. *)
  JSON_parse : string -> option value;
  (** [semver/functions/valid]: the normalised version, or [null]. *)
  semverValid : string -> option string;
  (** [semver/functions/rcompare]; the source calls it on versions that
      [semverValid] accepted, where it returns a number. *)
  semverRcompare : string -> string -> Z;
  (** [a.localeCompare(b)]. *)
  localeCompare : string -> string -> Z }.

(** The comparators handed to [sort] are consistent comparators, as
    [Array.prototype.sort] requires for a defined order: the sign flips when
    the arguments are swapped, and "not after" is transitive.  For semver
    this is asked of valid versions only. *)
Class ConsistentSemver (rt : Runtime) : Prop := {
  semverRcompare_antisym : forall a b,
    semverValid a <> None -> semverValid b <> None ->
    Z.sgn (semverRcompare b a) = (- Z.sgn (semverRcompare a b))%Z;
  semverRcompare_trans : forall a b c,
    semverValid a <> None -> semverValid b <> None -> semverValid c <> None ->
    (semverRcompare a b <= 0)%Z -> (semverRcompare b c <= 0)%Z ->
    (semverRcompare a c <= 0)%Z }.

Class ConsistentCollation (rt : Runtime) : Prop := {
  localeCompare_antisym : forall a b,
    Z.sgn (localeCompare b a) = (- Z.sgn (localeCompare a b))%Z;
  localeCompare_trans : forall a b c,
    (localeCompare a b <= 0)%Z -> (localeCompare b c <= 0)%Z ->
    (localeCompare a c <= 0)%Z }.

(** ** scripts/generate-gallery-lib.ts *)

Section Lib.
Context {rt : Runtime}.

(** [release.tagName.split("@v")[1]]. *)
Definition extractVersion (tagName : string) : option string :=
  nth_error (split "@v" tagName) 1.

(** [release.assets.find((a) => a.name === `${extensionName}.tar.gz`)]. *)
Definition findAsset (release : GitHubRelease.t) (extensionName : string)
  : option GitHubReleaseAsset.t :=
  find (fun a => GitHubReleaseAsset.name a =? extensionName ++ ".tar.gz")%string
       (GitHubRelease.assets release).

(** [metadata] after the [try]: the parsed body, [null] when parsing threw. *)
Definition parseBody (body : string) : value :=
  match JSON_parse body with
  | Some v => v
  | None => VNull
  end.

(** [metadata?.minimumConnectVersion || manifest.extension.minimumConnectVersion]. *)
Definition pickMinimumConnectVersion (metadata : value) (manifest : ExtensionManifest.t)
  : value :=
  match field metadata "minimumConnectVersion" with
  | Some v =>
      if truthy v then v
      else VStr (ExtensionInfo.minimumConnectVersion (ExtensionManifest.extension manifest))
  | None => VStr (ExtensionInfo.minimumConnectVersion (ExtensionManifest.extension manifest))
  end.

(** [manifest.extension.requiredFeatures?.length ? { requiredFeatures: ... } : {}]. *)
Definition manifestFeatures (manifest : ExtensionManifest.t) : option value :=
  match ExtensionInfo.requiredFeatures (ExtensionManifest.extension manifest) with
  | Some (f :: fs) => Some (featuresValue (f :: fs))
  | Some [] | None => None
  end.

(** [metadata?.requiredFeatures?.length ? { requiredFeatures: metadata.requiredFeatures }
    : ...], the property that the spread adds, if any. *)
Definition pickRequiredFeatures (metadata : value) (manifest : ExtensionManifest.t)
  : option value :=
  match field metadata "requiredFeatures" with
  | Some x => if lengthTruthy x then Some x else manifestFeatures manifest
  | None => manifestFeatures manifest
  end.

(** [manifest.environment ? { requiredEnvironment: manifest.environment } : {}]. *)
Definition manifestEnvironment (manifest : ExtensionManifest.t) : option value :=
  option_map environmentValue (ExtensionManifest.environment manifest).

(** [metadata?.requiredEnvironment ? { requiredEnvironment: ... } : ...]. *)
Definition pickRequiredEnvironment (metadata : value) (manifest : ExtensionManifest.t)
  : option value :=
  match field metadata "requiredEnvironment" with
  | Some x => if truthy x then Some x else manifestEnvironment manifest
  | None => manifestEnvironment manifest
  end.

(** The three [return null] of the source are the three [None] branches on
    the prefix, the asset and [semverValid]; an [undefined] version, which
    [semverValid] answers with [null], is the fourth and cannot be reached
    past the prefix test.  [JSON.parse] is the only call that can throw, and
    it is inside the [try]. *)
Definition parseExtensionRelease (release : GitHubRelease.t) (extensionName : string)
  (manifest : ExtensionManifest.t) : option ExtensionVersion.t :=
  if negb (startsWith (GitHubRelease.tagName release) (extensionName ++ "@v"))
  then None
  else
    let version := extractVersion (GitHubRelease.tagName release) in
    match findAsset release extensionName with
    | None => None
    | Some asset =>
        let metadata := parseBody (GitHubRelease.body release) in
        match version with
        | None => None
        | Some version =>
            match semverValid version with
            | None => None
            | Some _ =>
                Some {| ExtensionVersion.version := version;
                        ExtensionVersion.released := GitHubRelease.publishedAt release;
                        ExtensionVersion.url := GitHubReleaseAsset.url asset;
                        ExtensionVersion.minimumConnectVersion :=
                          pickMinimumConnectVersion metadata manifest;
                        ExtensionVersion.requiredFeatures :=
                          pickRequiredFeatures metadata manifest;
                        ExtensionVersion.requiredEnvironment :=
                          pickRequiredEnvironment metadata manifest |}
            end
        end
    end.

(** An array after [.filter((v) => v !== null)]. *)
Fixpoint keep {A : Type} (l : list (option A)) : list A :=
  match l with
  | [] => []
  | Some x :: l' => x :: keep l'
  | None :: l' => keep l'
  end.

(** The versions of an extension before they are sorted:
    [releases.map((r) => parseExtensionRelease(r, name, manifest))
             .filter((v) => v !== null)]. *)
Definition parsedReleases (manifest : ExtensionManifest.t)
  (releases : list GitHubRelease.t) : list ExtensionVersion.t :=
  keep (map (fun r =>
               parseExtensionRelease r
                 (ExtensionInfo.name (ExtensionManifest.extension manifest)) manifest)
            releases).

(** [(a, b) => semverRcompare(a.version, b.version)]. *)
Definition byVersion (a b : ExtensionVersion.t) : Z :=
  semverRcompare (ExtensionVersion.version a) (ExtensionVersion.version b).

(** [(a, b) => a.name.localeCompare(b.name)]. *)
Definition byName (a b : Extension.t) : Z :=
  localeCompare (Extension.name a) (Extension.name b).

(** One turn of the loop of [buildExtensions]: the extension pushed for a
    manifest, [None] where the loop [continue]s. *)
Definition buildExtension (manifest : ExtensionManifest.t)
  (releases : list GitHubRelease.t) : option Extension.t :=
  let info := ExtensionManifest.extension manifest in
  if ExtensionInfo.version info =? "0.0.0" then None
  else
    let extensionReleases := sortBy byVersion (parsedReleases manifest releases) in
    match extensionReleases with
    | [] => None
    | latest :: _ =>
        Some {| Extension.name := ExtensionInfo.name info;
                Extension.title := ExtensionInfo.title info;
                Extension.description := ExtensionInfo.description info;
                Extension.homepage := ExtensionInfo.homepage info;
                Extension.latestVersion := latest;
                Extension.versions := extensionReleases;
                Extension.tags :=
                  match ExtensionInfo.tags info with
                  | Some ts => ts
                  | None => []
                  end;
                Extension.category :=
                  match ExtensionInfo.category info with
                  | Some c => if c =? EmptyString then None else Some c
                  | None => None
                  end |}
    end.

(** The loop over the [Map] in insertion order, then
    [extensions.sort((a, b) => a.name.localeCompare(b.name))]. *)
Definition buildExtensions (manifests : list (string * ExtensionManifest.t))
  (releases : list GitHubRelease.t) : list Extension.t :=
  sortBy byName
    (keep (map (fun entry => buildExtension (snd entry) releases) manifests)).

End Lib.

(** [set.add(x)] on a set kept as the list of its members. *)
Definition setAdd (set : list string) (x : string) : list string :=
  if existsb (String.eqb x) set then set else set ++ [x].

(** [for (const x of xs || []) set.add(x)]. *)
Definition addAll (set : list string) (xs : option (list string)) : list string :=
  fold_left setAdd (match xs with Some l => l | None => [] end) set.

Module TagsAndFeatures.
Record t := { allTags : list string; allFeatures : list string }.
End TagsAndFeatures.

(** One turn of the loop over the manifests. *)
Definition collectStep (acc : TagsAndFeatures.t) (entry : string * ExtensionManifest.t)
  : TagsAndFeatures.t :=
  let info := ExtensionManifest.extension (snd entry) in
  {| TagsAndFeatures.allTags :=
       addAll (TagsAndFeatures.allTags acc) (ExtensionInfo.tags info);
     TagsAndFeatures.allFeatures :=
       addAll (TagsAndFeatures.allFeatures acc) (ExtensionInfo.requiredFeatures info) |}.

Definition collectTagsAndFeatures (manifests : list (string * ExtensionManifest.t))
  : TagsAndFeatures.t :=
  fold_left collectStep manifests
    {| TagsAndFeatures.allTags := []; TagsAndFeatures.allFeatures := [] |}.

(** The order of [Array.prototype.sort] without a comparator, on strings:
    code unit by code unit, a proper prefix first. *)
Definition defaultCompare (a b : string) : Z :=
  comparisonZ (String.compare a b).

Module GalleryOutput.
Record t := {
  categories : list Category.t;
  tags : list string;
  requiredFeatures : list string;
  extensions : list Extension.t }.
End GalleryOutput.

(** [[...allTags].sort()] spreads a set into the array of its members. *)
Definition buildOutput (extensions : list Extension.t) (config : GalleryConfig.t)
  (allTags allFeatures : list string) : GalleryOutput.t :=
  {| GalleryOutput.categories := GalleryConfig.categories config;
     GalleryOutput.tags := sortBy defaultCompare allTags;
     GalleryOutput.requiredFeatures := sortBy defaultCompare allFeatures;
     GalleryOutput.extensions := extensions |}.

(** The release normaliser, [transformGitHubApiReleases], is imported by the
    tests from generate-gallery-lib.ts but is not in the source at hand. *)

(** Modelled from the spec: the normaliser's treatment of one asset, which
    is missing from the source.  Spec 4.1: "Each asset's direct-download
    reference is renamed to the canonical url field", the [name] is kept. *)
Definition transformAsset (a : ApiAsset.t) : GitHubReleaseAsset.t :=
  {| GitHubReleaseAsset.name := ApiAsset.name a;
     GitHubReleaseAsset.url := ApiAsset.browser_download_url a |}.

(** Modelled from the spec: the normaliser's treatment of one release, which
    is missing from the source.  Spec 8: [tag_name] to [tagName],
    [published_at] to [publishedAt]; "no other transformation occurs". *)
Definition transformRelease (r : GitHubApiRelease.t) : GitHubRelease.t :=
  {| GitHubRelease.tagName := GitHubApiRelease.tag_name r;
     GitHubRelease.publishedAt := GitHubApiRelease.published_at r;
     GitHubRelease.assets := map transformAsset (GitHubApiRelease.assets r);
     GitHubRelease.body := GitHubApiRelease.body r |}.

(** Modelled from the spec: [transformGitHubApiReleases], which is missing
    from the source.  Spec 4.1: "produce an equal-length sequence of
    CanonicalRelease records preserving order". *)
Definition transformGitHubApiReleases (apiReleases : list GitHubApiRelease.t)
  : list GitHubRelease.t :=
  map transformRelease apiReleases.

(** ** Vocabulary of the statements *)

(** [a] is not after [b] in the order of the comparator [cmp]. *)
Definition notAfter {A : Type} (cmp : A -> A -> Z) (a b : A) : Prop :=
  (cmp a b <= 0)%Z.

(** A version record whose [version] the semver package accepts. *)
Definition validVersion {rt : Runtime} (v : ExtensionVersion.t) : Prop :=
  semverValid (ExtensionVersion.version v) <> None.

(** Strictly ascending in code unit order. *)
Definition strictlyBefore (a b : string) : Prop := String.compare a b = Lt.

(** The laws of an order given by a three-way comparison. *)
Definition lawful {A : Type} (c : A -> A -> comparison) : Prop :=
  (forall x y, c y x = CompOpp (c x y))
  /\ (forall x y z, c x y <> Gt -> c y z <> Gt -> c x z <> Gt).

(** A release with another body. *)
Definition withBody (release : GitHubRelease.t) (body : string) : GitHubRelease.t :=
  {| GitHubRelease.tagName := GitHubRelease.tagName release;
     GitHubRelease.publishedAt := GitHubRelease.publishedAt release;
     GitHubRelease.assets := GitHubRelease.assets release;
     GitHubRelease.body := body |}.

(** A parsed body is an object with at least one of the three metadata
    properties. *)
Definition carriesMetadata (parsed : value) : bool :=
  match parsed with
  | VObj props =>
      match lookup "minimumConnectVersion" props,
            lookup "requiredFeatures" props,
            lookup "requiredEnvironment" props with
      | None, None, None => false
      | _, _, _ => true
      end
  | _ => false
  end.

(** ** A reference runtime

    The theorems below hold for every [Runtime].  To run the pipeline on
    concrete inputs this section supplies one: a JSON reader for the ECMA-404
    grammar, Semantic Versioning 2.0.0, and a string comparison. *)

Fixpoint allChars (p : ascii -> bool) (s : string) : bool :=
  match s with
  | EmptyString => true
  | String c s' => p c && allChars p s'
  end.

Definition isDigit (c : ascii) : bool :=
  ((48 <=? N_of_ascii c) && (N_of_ascii c <=? 57))%N.

Fixpoint digitsValue (acc : N) (s : string) : N :=
  match s with
  | EmptyString => acc
  | String c s' => digitsValue (10 * acc + (N_of_ascii c - 48))%N s'
  end.

Fixpoint traverse {A B : Type} (f : A -> option B) (l : list A) : option (list B) :=
  match l with
  | [] => Some []
  | x :: l' =>
      match f x, traverse f l' with
      | Some y, Some ys => Some (y :: ys)
      | _, _ => None
      end
  end.

Module Semver.

(** The npm package semver is not part of the source.  Spec 4.2 and 4.3 ask
    for "standard major.minor.patch semantics, with optional
    pre-release/build metadata" and the "standard semver comparison: major,
    then minor, then patch, then pre-release tag ordering"; this module is
    the grammar and the precedence of Semantic Versioning 2.0.0. *)

(** A pre-release identifier. *)
Inductive identifier : Type :=
| Numeric (n : N)
| Alphanumeric (s : string).

Record t := {
  major : N;
  minor : N;
  patch : N;
  prerelease : list identifier;
  build : list string }.

Definition isIdentifierChar (c : ascii) : bool :=
  let n := N_of_ascii c in
  (isDigit c
   || ((65 <=? n) && (n <=? 90))
   || ((97 <=? n) && (n <=? 122))
   || (n =? 45))%N.

(** ["0"], or digits that do not start with a zero. *)
Definition numericIdentifier (s : string) : option N :=
  match s with
  | EmptyString => None
  | String c s' =>
      if allChars isDigit s && negb ((c =? "0")%char && negb (s' =? EmptyString))
      then Some (digitsValue 0 s)
      else None
  end.

Definition prereleaseIdentifier (s : string) : option identifier :=
  if s =? EmptyString then None
  else if allChars isDigit s then option_map Numeric (numericIdentifier s)
  else if allChars isIdentifierChar s then Some (Alphanumeric s)
  else None.

Definition buildIdentifier (s : string) : option string :=
  if negb (s =? EmptyString) && allChars isIdentifierChar s then Some s else None.

(** The dot-separated identifiers after a ["-"] or a ["+"], none when the
    sign is not there. *)
Definition identifiers {A : Type} (f : string -> option A) (part : option string)
  : option (list A) :=
  match part with
  | Some p => traverse f (split "." p)
  | None => Some []
  end.

Definition parse (s : string) : option t :=
  let (s1, buildPart) :=
    match cut "+" s with
    | Some (b, a) => (b, Some a)
    | None => (s, None)
    end in
  let (core, prePart) :=
    match cut "-" s1 with
    | Some (b, a) => (b, Some a)
    | None => (s1, None)
    end in
  match map numericIdentifier (split "." core) with
  | [Some ma; Some mi; Some pa] =>
      match identifiers prereleaseIdentifier prePart,
            identifiers buildIdentifier buildPart with
      | Some pre, Some bld =>
          Some {| major := ma; minor := mi; patch := pa;
                  prerelease := pre; build := bld |}
      | _, _ => None
      end
  | _ => None
  end.

Definition thenCompare (c d : comparison) : comparison :=
  match c with
  | Eq => d
  | _ => c
  end.

(** Numeric identifiers rank below alphanumeric ones. *)
Definition compareIdentifier (a b : identifier) : comparison :=
  match a, b with
  | Numeric x, Numeric y => N.compare x y
  | Numeric _, Alphanumeric _ => Lt
  | Alphanumeric _, Numeric _ => Gt
  | Alphanumeric x, Alphanumeric y => String.compare x y
  end.

Fixpoint compareIdentifiers (p q : list identifier) : comparison :=
  match p, q with
  | [], [] => Eq
  | [], _ :: _ => Lt
  | _ :: _, [] => Gt
  | a :: p', b :: q' => thenCompare (compareIdentifier a b) (compareIdentifiers p' q')
  end.

(** A version without pre-release ranks above one with. *)
Definition comparePrerelease (p q : list identifier) : comparison :=
  match p, q with
  | [], [] => Eq
  | [], _ :: _ => Gt
  | _ :: _, [] => Lt
  | _ :: _, _ :: _ => compareIdentifiers p q
  end.

(** Precedence; build metadata does not take part. *)
Definition compare (a b : t) : comparison :=
  thenCompare (N.compare (major a) (major b))
    (thenCompare (N.compare (minor a) (minor b))
       (thenCompare (N.compare (patch a) (patch b))
          (comparePrerelease (prerelease a) (prerelease b)))).

(** Modelled from the spec: [semver/functions/valid], of a package that is
    not in the source; a "valid semantic version (following standard
    major.minor.patch semantics, with optional pre-release/build metadata)"
    gives the version without its build metadata, anything else [null]. *)
Definition valid (s : string) : option string :=
  match parse s with
  | Some _ => Some (upToFirst "+" s)
  | None => None
  end.

(** Modelled from the spec: [semver/functions/rcompare], of a package that
    is not in the source; the "standard semver comparison" in descending
    order, that is [compare(b, a)]. *)
Definition rcompare (a b : string) : Z :=
  match parse a, parse b with
  | Some x, Some y => comparisonZ (compare y x)
  | _, _ => 0%Z
  end.

End Semver.

(** The quotation mark. *)
Definition quote : ascii := "034"%char.

(** A string literal of JSON for a text that needs no escape. *)
Definition quoted (s : string) : string :=
  String quote (s ++ String quote EmptyString).

Module Json.

(** A reader for the JSON grammar (ECMA-404), the language [JSON.parse]
    accepts.  A [\u] escape above [00FF] denotes a code unit outside the
    strings of this model and is not read. *)

Definition isWhitespace (c : ascii) : bool :=
  let n := N_of_ascii c in
  ((n =? 32) || (n =? 9) || (n =? 10) || (n =? 13))%N.

Fixpoint skipWhitespace (s : string) : string :=
  match s with
  | EmptyString => s
  | String c s' => if isWhitespace c then skipWhitespace s' else s
  end.

Definition hexDigit (c : ascii) : option N :=
  let n := N_of_ascii c in
  if isDigit c then Some (n - 48)%N
  else if ((65 <=? n) && (n <=? 70))%N then Some (n - 55)%N
  else if ((97 <=? n) && (n <=? 102))%N then Some (n - 87)%N
  else None.

Definition codeUnit (a b c d : ascii) : option ascii :=
  match hexDigit a, hexDigit b, hexDigit c, hexDigit d with
  | Some 0%N, Some 0%N, Some h, Some l => Some (ascii_of_N (16 * h + l))
  | _, _, _, _ => None
  end.

Definition escape (c : ascii) : option ascii :=
  if (c =? quote)%char then Some c
  else if (c =? "\")%char then Some c
  else if (c =? "/")%char then Some c
  else if (c =? "b")%char then Some (ascii_of_N 8)
  else if (c =? "f")%char then Some (ascii_of_N 12)
  else if (c =? "n")%char then Some (ascii_of_N 10)
  else if (c =? "r")%char then Some (ascii_of_N 13)
  else if (c =? "t")%char then Some (ascii_of_N 9)
  else None.

(** The characters of a string literal after its opening quote, and the
    input after its closing quote. *)
Fixpoint chars (s : string) : option (string * string) :=
  match s with
  | EmptyString => None
  | String c s1 =>
      if (c =? quote)%char then Some (EmptyString, s1)
      else if (c =? "\")%char then
        match s1 with
        | EmptyString => None
        | String e s2 =>
            if (e =? "u")%char then
              match s2 with
              | String h1 (String h2 (String h3 (String h4 s3))) =>
                  match codeUnit h1 h2 h3 h4, chars s3 with
                  | Some u, Some (str, rest) => Some (String u str, rest)
                  | _, _ => None
                  end
              | _ => None
              end
            else
              match escape e, chars s2 with
              | Some u, Some (str, rest) => Some (String u str, rest)
              | _, _ => None
              end
        end
      else if (N_of_ascii c <? 32)%N then None
      else
        match chars s1 with
        | Some (str, rest) => Some (String c str, rest)
        | None => None
        end
  end.

(** The longest run of digits at the head of [s], and what follows. *)
Fixpoint takeDigits (s : string) : string * string :=
  match s with
  | EmptyString => (EmptyString, EmptyString)
  | String c s' =>
      if isDigit c
      then let (ds, rest) := takeDigits s' in (String c ds, rest)
      else (EmptyString, s)
  end.

(** The double nearest to [m * 10 ^ e10], ties to even; [m] is not negative.
    For a negative exponent the quotient is taken with more than 53 bits and
    a sticky last bit, so that rounding it rounds the exact value. *)
Definition toDouble (negative : bool) (m e10 : Z) : spec_float :=
  let signed (x : Z) := if negative then Z.opp x else x in
  if (m =? 0)%Z then S754_zero negative
  else if (0 <=? e10)%Z
  then binary_normalize 53 1024 (signed (m * 10 ^ e10)%Z) 0 false
  else
    let d := (10 ^ (- e10))%Z in
    let shift := Z.max 0 (Z.log2 d + 64 - Z.log2 m) in
    let q := (m * 2 ^ shift / d)%Z in
    let sticky := if (m * 2 ^ shift mod d =? 0)%Z then 0%Z else 1%Z in
    binary_normalize 53 1024 (signed (2 * q + sticky)%Z) (- (shift + 1)) false.

Definition exponent (s : string) : option (Z * string) :=
  match s with
  | String c s1 =>
      if ((c =? "e") || (c =? "E"))%char then
        let (negative, s2) :=
          match s1 with
          | String sign s' =>
              if (sign =? "-")%char then (true, s')
              else if (sign =? "+")%char then (false, s')
              else (false, s1)
          | EmptyString => (false, s1)
          end in
        let (ds, rest) := takeDigits s2 in
        if ds =? EmptyString then None
        else
          let e := Z.of_N (digitsValue 0 ds) in
          Some (if negative then Z.opp e else e, rest)
      else Some (0%Z, s)
  | EmptyString => Some (0%Z, s)
  end.

Definition fraction (s : string) : option (string * string) :=
  match s with
  | String c s1 =>
      if (c =? ".")%char then
        let (ds, rest) := takeDigits s1 in
        if ds =? EmptyString then None else Some (ds, rest)
      else Some (EmptyString, s)
  | EmptyString => Some (EmptyString, s)
  end.

Definition number (s : string) : option (value * string) :=
  let (negative, s1) :=
    match s with
    | String c s' => if (c =? "-")%char then (true, s') else (false, s)
    | EmptyString => (false, s)
    end in
  let (int, s2) := takeDigits s1 in
  match int with
  | EmptyString => None
  | String c more =>
      if (c =? "0")%char && negb (more =? EmptyString) then None
      else
        match fraction s2 with
        | None => None
        | Some (frac, s3) =>
            match exponent s3 with
            | None => None
            | Some (e, s4) =>
                let m := Z.of_N (digitsValue 0 (int ++ frac)) in
                Some (VNum (toDouble negative m (e - Z.of_nat (String.length frac))), s4)
            end
        end
  end.

(** A repeated key keeps its place and takes the later value. *)
Fixpoint setProp (key : string) (v : value) (props : list (string * value))
  : list (string * value) :=
  match props with
  | [] => [(key, v)]
  | (k, w) :: rest =>
      if k =? key then (k, v) :: rest else (k, w) :: setProp key v rest
  end.

Definition literal (s : string) : option (value * string) :=
  if String.prefix "null" s then Some (VNull, drop 4 s)
  else if String.prefix "true" s then Some (VBool true, drop 4 s)
  else if String.prefix "false" s then Some (VBool false, drop 5 s)
  else number s.

(** [fuel] bounds the number of nested calls; [parse] gives enough of it. *)
Fixpoint parseValue (fuel : nat) (s : string) : option (value * string) :=
  match fuel with
  | O => None
  | S f =>
      match skipWhitespace s with
      | EmptyString => None
      | String c s1 =>
          if (c =? "[")%char then
            match skipWhitespace s1 with
            | EmptyString => None
            | String c' s2 =>
                if (c' =? "]")%char then Some (VArr [], s2)
                else parseElements f s1 []
            end
          else if (c =? "{")%char then
            match skipWhitespace s1 with
            | EmptyString => None
            | String c' s2 =>
                if (c' =? "}")%char then Some (VObj [], s2)
                else parseMembers f s1 []
            end
          else if (c =? quote)%char then
            match chars s1 with
            | Some (str, rest) => Some (VStr str, rest)
            | None => None
            end
          else literal (String c s1)
      end
  end
with parseElements (fuel : nat) (s : string) (acc : list value)
  : option (value * string) :=
  match fuel with
  | O => None
  | S f =>
      match parseValue f s with
      | None => None
      | Some (v, s1) =>
          match skipWhitespace s1 with
          | EmptyString => None
          | String c s2 =>
              if (c =? ",")%char then parseElements f s2 (acc ++ [v])
              else if (c =? "]")%char then Some (VArr (acc ++ [v]), s2)
              else None
          end
      end
  end
with parseMembers (fuel : nat) (s : string) (acc : list (string * value))
  : option (value * string) :=
  match fuel with
  | O => None
  | S f =>
      match skipWhitespace s with
      | EmptyString => None
      | String q s1 =>
          if (q =? quote)%char then
            match chars s1 with
            | None => None
            | Some (key, s2) =>
                match skipWhitespace s2 with
                | EmptyString => None
                | String colon s3 =>
                    if (colon =? ":")%char then
                      match parseValue f s3 with
                      | None => None
                      | Some (v, s4) =>
                          match skipWhitespace s4 with
                          | EmptyString => None
                          | String c s5 =>
                              if (c =? ",")%char
                              then parseMembers f s5 (setProp key v acc)
                              else if (c =? "}")%char
                              then Some (VObj (setProp key v acc), s5)
                              else None
                          end
                      end
                    else None
                end
            end
          else None
      end
  end.

(** [JSON.parse]: one value, with nothing but white space around it. *)
Definition parse (s : string) : option value :=
  match parseValue (2 * String.length s + 2) s with
  | Some (v, rest) =>
      match skipWhitespace rest with
      | EmptyString => Some v
      | String _ _ => None
      end
  | None => None
  end.

End Json.

(** Code unit order stands for the collation: a consistent comparator that
    agrees with the root collation of the Unicode Collation Algorithm on
    words of lower-case ASCII letters. *)
Definition referenceRuntime : Runtime :=
  {| JSON_parse := Json.parse;
     semverValid := Semver.valid;
     semverRcompare := Semver.rcompare;
     localeCompare := defaultCompare |}.

(** ** Sample inputs, after the fixtures of generate-gallery-lib.test.ts *)

Definition makeManifest (name version : string) (requiredFeatures : option (list string))
  (category : option string) (tags : option (list string))
  (environment : option ExtensionEnvironment.t) : ExtensionManifest.t :=
  {| ExtensionManifest.extension :=
       {| ExtensionInfo.name := name;
          ExtensionInfo.title := "My Extension";
          ExtensionInfo.description := "A test extension";
          ExtensionInfo.homepage := "https://example.com";
          ExtensionInfo.version := version;
          ExtensionInfo.minimumConnectVersion := "2024.01.0";
          ExtensionInfo.requiredFeatures := requiredFeatures;
          ExtensionInfo.category := category;
          ExtensionInfo.tags := tags |};
     ExtensionManifest.environment := environment |}.

Definition sampleManifest : ExtensionManifest.t :=
  makeManifest "my-ext" "1.0.0" None None (Some []) None.

Definition makeRelease (name tagName body : string) : GitHubRelease.t :=
  {| GitHubRelease.tagName := tagName;
     GitHubRelease.publishedAt := "2024-06-01T00:00:00Z";
     GitHubRelease.assets :=
       [{| GitHubReleaseAsset.name := name ++ ".tar.gz";
           GitHubReleaseAsset.url := "https://example.com/" ++ name ++ ".tar.gz" |}];
     GitHubRelease.body := body |}.

Definition sampleRelease (tagName body : string) : GitHubRelease.t :=
  makeRelease "my-ext" tagName body.

(** The version record of a sample release without metadata. *)
Definition sampleVersion (version : string) : ExtensionVersion.t :=
  {| ExtensionVersion.version := version;
     ExtensionVersion.released := "2024-06-01T00:00:00Z";
     ExtensionVersion.url := "https://example.com/my-ext.tar.gz";
     ExtensionVersion.minimumConnectVersion := VStr "2024.01.0";
     ExtensionVersion.requiredFeatures := None;
     ExtensionVersion.requiredEnvironment := None |}.

Definition sampleExtension (name : string) (versions : list ExtensionVersion.t)
  (latest : ExtensionVersion.t) : Extension.t :=
  {| Extension.name := name;
     Extension.title := "My Extension";
     Extension.description := "A test extension";
     Extension.homepage := "https://example.com";
     Extension.latestVersion := latest;
     Extension.versions := versions;
     Extension.tags := [];
     Extension.category := None |}.

(** A body with the three metadata fields. *)
Definition metadataBody : string :=
  "{" ++ quoted "minimumConnectVersion" ++ ":" ++ quoted "2025.01.0" ++ ","
  ++ quoted "requiredFeatures" ++ ":[" ++ quoted "feature-a" ++ "],"
  ++ quoted "requiredEnvironment" ++ ":{" ++ quoted "python" ++ ":{"
  ++ quoted "requires" ++ ":" ++ quoted ">=3.10" ++ "}}}".

Definition metadataValue : value :=
  VObj [("minimumConnectVersion", VStr "2025.01.0");
        ("requiredFeatures", VArr [VStr "feature-a"]);
        ("requiredEnvironment", VObj [("python", VObj [("requires", VStr ">=3.10")])])].

(** What [parseExtensionRelease] makes of a sample release with that body. *)
Definition metadataVersion : ExtensionVersion.t :=
  {| ExtensionVersion.version := "1.0.0";
     ExtensionVersion.released := "2024-06-01T00:00:00Z";
     ExtensionVersion.url := "https://example.com/my-ext.tar.gz";
     ExtensionVersion.minimumConnectVersion := VStr "2025.01.0";
     ExtensionVersion.requiredFeatures := Some (VArr [VStr "feature-a"]);
     ExtensionVersion.requiredEnvironment :=
       Some (VObj [("python", VObj [("requires", VStr ">=3.10")])]) |}.

(** Two releases of the sample extension, the older one first. *)
Definition sampleReleases : list GitHubRelease.t :=
  [sampleRelease "my-ext@v0.9.0" EmptyString; sampleRelease "my-ext@v1.0.0" EmptyString].

Definition zebraAlphaManifests : list (string * ExtensionManifest.t) :=
  [("zebra", makeManifest "zebra" "1.0.0" None None (Some []) None);
   ("alpha", makeManifest "alpha" "1.0.0" None None (Some []) None)].

Definition zebraAlphaReleases : list GitHubRelease.t :=
  [makeRelease "zebra" "zebra@v1.0.0" EmptyString;
   makeRelease "alpha" "alpha@v1.0.0" EmptyString].

Definition pythonEnvironment : ExtensionEnvironment.t :=
  {| ExtensionEnvironment.python := Some {| LanguageRequirement.requires := ">=3.9" |};
     ExtensionEnvironment.r := None;
     ExtensionEnvironment.quarto := None |}.

(** ** scripts/generate-gallery.ts

    The driver script: the four required environment variables, the
    composition of the library functions on the loaded manifests and
    releases, and the totals of its log line.  The reading of the files and
    the call of [gh] between them are input and output and are left out. *)

(** What a call does: it returns, or it throws an [Error] with a message. *)
Inductive outcome (A : Type) : Type :=
| Returned (a : A)
| Thrown (message : string).

Arguments Returned {A} a.
Arguments Thrown {A} message.

(** [requireEnv], over [process.env] as the map from names to values;
    [!value] holds for [undefined] and for the empty string. *)
Definition requireEnv (env : string -> option string) (name : string) : outcome string :=
  match env name with
  | Some value =>
      if value =? EmptyString
      then Thrown (name ++ " environment variable is required")
      else Returned value
  | None => Thrown (name ++ " environment variable is required")
  end.

Module Configuration.
Record t := {
  extensionsDir : string;
  galleryConfigPath : string;
  outputPath : string;
  repo : string }.
End Configuration.

(** The four [const ... = requireEnv(...)] at the head of the script, in
    their order; the first that throws ends the run. *)
Definition readConfiguration (env : string -> option string) : outcome Configuration.t :=
  match requireEnv env "EXTENSIONS_DIR" with
  | Thrown message => Thrown message
  | Returned extensionsDir =>
      match requireEnv env "GALLERY_CONFIG" with
      | Thrown message => Thrown message
      | Returned galleryConfigPath =>
          match requireEnv env "EXTENSIONS_JSON" with
          | Thrown message => Thrown message
          | Returned outputPath =>
              match requireEnv env "GITHUB_REPOSITORY" with
              | Thrown message => Thrown message
              | Returned repo =>
                  Returned {| Configuration.extensionsDir := extensionsDir;
                              Configuration.galleryConfigPath := galleryConfigPath;
                              Configuration.outputPath := outputPath;
                              Configuration.repo := repo |}
              end
          end
      end
  end.

(** The names the script requires, in the order it asks for them. *)
Definition requiredVariables : list string :=
  ["EXTENSIONS_DIR"; "GALLERY_CONFIG"; "EXTENSIONS_JSON"; "GITHUB_REPOSITORY"].

(** A variable that [requireEnv] accepts: defined and not empty. *)
Definition isSet (env : string -> option string) (name : string) : bool :=
  match env name with
  | Some value => negb (value =? EmptyString)
  | None => false
  end.

(** Steps 2 to 5 of the script once the files are read and the releases
    listed: [collectTagsAndFeatures(manifests)],
    [buildExtensions(manifests, allReleases)] and [buildOutput] on both. *)
Definition generateGallery {rt : Runtime} (config : GalleryConfig.t)
  (manifests : list (string * ExtensionManifest.t))
  (allReleases : list GitHubRelease.t) : GalleryOutput.t :=
  let collected := collectTagsAndFeatures manifests in
  let extensions := buildExtensions manifests allReleases in
  buildOutput extensions config
    (TagsAndFeatures.allTags collected) (TagsAndFeatures.allFeatures collected).

(** [extensions.reduce((sum, e) => sum + e.versions.length, 0)]. *)
Definition totalVersions (extensions : list Extension.t) : nat :=
  fold_left (fun sum e => sum + List.length (Extension.versions e)) extensions 0.

(** An environment given by its bindings, the first binding of a name
    counting. *)
Fixpoint envOf (bindings : list (string * string)) (name : string) : option string :=
  match bindings with
  | [] => None
  | (k, v) :: rest => if k =? name then Some v else envOf rest name
  end.

(** * Properties *)

Local Open Scope string_scope.

(** ** Strings: prefixes, first occurrences and [split] *)

Lemma prefix_append (p t : string) : String.prefix p (p ++ t) = true.
Proof.
  induction p as [|c p IH]; simpl.
  - destruct t; reflexivity.
  - destruct (ascii_dec c c) as [_|n]; [exact IH | contradiction].
Qed.

Lemma prefix_true (p s : string) :
  String.prefix p s = true -> s = p ++ drop (String.length p) s.
Proof.
  revert s; induction p as [|c p IH]; intros s H.
  - reflexivity.
  - destruct s as [|d s]; simpl in H; [discriminate|].
    destruct (ascii_dec c d) as [->|]; [|discriminate].
    simpl. f_equal. apply IH, H.
Qed.

Lemma prefix_empty (p : string) : p <> EmptyString -> String.prefix p EmptyString = false.
Proof. destruct p; [congruence | reflexivity]. Qed.

Lemma cut_equation (sep s : string) :
  cut sep s =
  if String.prefix sep s then Some (EmptyString, drop (String.length sep) s)
  else match s with
       | EmptyString => None
       | String c s' =>
           match cut sep s' with
           | Some (b, a) => Some (String c b, a)
           | None => None
           end
       end.
Proof. destruct s; reflexivity. Qed.

(** [cut] finds an occurrence: the input is the text before, the separator
    and the text after. *)
Lemma cut_Some_append (sep s b a : string) :
  cut sep s = Some (b, a) -> s = b ++ sep ++ a.
Proof.
  revert b a; induction s as [|c s IH]; intros b a; rewrite cut_equation.
  - destruct (String.prefix sep EmptyString) eqn:P; [|discriminate].
    intros [= <- <-]. apply (prefix_true sep EmptyString P).
  - destruct (String.prefix sep (String c s)) eqn:P.
    + intros [= <- <-]. apply (prefix_true _ _ P).
    + destruct (cut sep s) as [[b' a']|]; [|discriminate].
      intros [= <- <-]. simpl. f_equal. apply IH. reflexivity.
Qed.

(** ... and it is the first one: no occurrence starts further left. *)
Lemma cut_Some_first (sep s b a : string) :
  cut sep s = Some (b, a) ->
  forall b' a', s = b' ++ sep ++ a' -> String.length b <= String.length b'.
Proof.
  revert b a; induction s as [|c s IH]; intros b a; rewrite cut_equation.
  - destruct (String.prefix sep EmptyString); [|discriminate].
    intros [= <- <-] b' a' _. apply Nat.le_0_l.
  - destruct (String.prefix sep (String c s)) eqn:P.
    + intros [= <- <-] b' a' _. apply Nat.le_0_l.
    + destruct (cut sep s) as [[b0 a0]|] eqn:C; [|discriminate].
      intros [= <- <-] b' a' E.
      destruct b' as [|c' b'].
      * simpl in E. rewrite E, prefix_append in P. discriminate.
      * simpl in E. injection E as _ E. simpl.
        apply le_n_S. exact (IH b0 a0 eq_refl b' a' E).
Qed.

Lemma cut_None (sep s : string) :
  cut sep s = None -> forall b a, s <> b ++ sep ++ a.
Proof.
  induction s as [|c s IH]; rewrite cut_equation.
  - destruct (String.prefix sep EmptyString) eqn:P; [discriminate|].
    intros _ b a E. destruct b; simpl in E.
    + rewrite E, prefix_append in P. discriminate.
    + discriminate.
  - destruct (String.prefix sep (String c s)) eqn:P; [discriminate|].
    destruct (cut sep s) as [[b0 a0]|]; [discriminate|].
    intros _ b a E. destruct b as [|c' b]; simpl in E.
    + rewrite E, prefix_append in P. discriminate.
    + injection E as _ E. exact (IH eq_refl b a E).
Qed.

Lemma pieces_skip (sep : string) (k : nat) (s : string) :
  pieces sep k s = pieces sep 0 (drop k s).
Proof.
  revert k; induction s as [|c s IH]; intros [|k]; try reflexivity.
  simpl drop. rewrite <- IH. reflexivity.
Qed.

Lemma pieces_cut (sep s : string) :
  sep <> EmptyString ->
  pieces sep 0 s =
  match cut sep s with
  | Some (b, a) => (b, split sep a)
  | None => (s, [])
  end.
Proof.
  intros Hsep. induction s as [|c s IH].
  - rewrite cut_equation, (prefix_empty sep Hsep). reflexivity.
  - rewrite cut_equation. cbn [pieces].
    destruct (String.prefix sep (String c s)) eqn:P.
    + rewrite pieces_skip. unfold split.
      destruct sep as [|c0 sep]; [congruence|].
      cbn [String.length drop Nat.sub]. rewrite ?Nat.sub_0_r. reflexivity.
    + rewrite IH. destruct (cut sep s) as [[b a]|]; reflexivity.
Qed.

(** [split] cuts at the first separator and goes on with the rest. *)
Lemma split_cut (sep s : string) :
  sep <> EmptyString ->
  split sep s =
  match cut sep s with
  | Some (b, a) => b :: split sep a
  | None => [s]
  end.
Proof.
  intros Hsep. unfold split at 1. rewrite (pieces_cut sep s Hsep).
  destruct (cut sep s) as [[b a]|]; reflexivity.
Qed.

Lemma startsWith_cut (s name sep : string) :
  startsWith s (name ++ sep) = true -> exists b a, cut sep s = Some (b, a).
Proof.
  unfold startsWith. revert s; induction name as [|c name IH]; intros s H.
  - rewrite cut_equation. simpl in H. rewrite H. eauto.
  - destruct s as [|d s]; simpl in H; [discriminate|].
    destruct (ascii_dec c d) as [->|]; [|discriminate].
    rewrite cut_equation. destruct (String.prefix sep (String d s)); [eauto|].
    destruct (IH s H) as (b & a & ->). eauto.
Qed.

(** [afterFirst] is what its name says. *)
Lemma afterFirst_first_occurrence (sep s rest : string) :
  afterFirst sep s = Some rest ->
  exists before,
    s = before ++ sep ++ rest
    /\ forall b a, s = b ++ sep ++ a -> String.length before <= String.length b.
Proof.
  unfold afterFirst. destruct (cut sep s) as [[before a]|] eqn:C; [|discriminate].
  intros [= <-]. exists before. split.
  - apply (cut_Some_append _ _ _ _ C).
  - apply (cut_Some_first _ _ _ _ C).
Qed.

Lemma afterFirst_None (sep s : string) :
  afterFirst sep s = None -> forall b a, s <> b ++ sep ++ a.
Proof.
  unfold afterFirst. destruct (cut sep s) as [[before a]|] eqn:C; [discriminate|].
  intros _. apply (cut_None _ _ C).
Qed.

Lemma extractVersion_cut (tagName b rest : string) :
  cut "@v" tagName = Some (b, rest) ->
  nth_error (split "@v" tagName) 1 = Some (upToFirst "@v" rest).
Proof.
  intros C. rewrite split_cut, C by discriminate. cbn [nth_error].
  rewrite split_cut by discriminate. unfold upToFirst.
  destruct (cut "@v" rest) as [[v a]|]; reflexivity.
Qed.

(** ** parseExtensionRelease *)

Section ParseExtensionRelease.
Context {rt : Runtime}.

(** What a non-null result says about the inputs. *)
Lemma parseExtensionRelease_Some release extensionName manifest v :
  parseExtensionRelease release extensionName manifest = Some v ->
  exists asset version,
    startsWith (GitHubRelease.tagName release) (extensionName ++ "@v") = true /\
    findAsset release extensionName = Some asset /\
    extractVersion (GitHubRelease.tagName release) = Some version /\
    semverValid version <> None /\
    v = {| ExtensionVersion.version := version;
           ExtensionVersion.released := GitHubRelease.publishedAt release;
           ExtensionVersion.url := GitHubReleaseAsset.url asset;
           ExtensionVersion.minimumConnectVersion :=
             pickMinimumConnectVersion (parseBody (GitHubRelease.body release)) manifest;
           ExtensionVersion.requiredFeatures :=
             pickRequiredFeatures (parseBody (GitHubRelease.body release)) manifest;
           ExtensionVersion.requiredEnvironment :=
             pickRequiredEnvironment (parseBody (GitHubRelease.body release)) manifest |}.
Proof.
  unfold parseExtensionRelease.
  destruct (startsWith _ _) eqn:P; [|discriminate]. cbn [negb].
  destruct (findAsset release extensionName) as [asset|]; [|discriminate].
  destruct (extractVersion _) as [version|]; [|discriminate].
  destruct (semverValid version) eqn:V; [|discriminate].
  intros [= <-]. exists asset, version. repeat split; congruence.
Qed.

Lemma findAsset_None release extensionName :
  findAsset release extensionName = None <->
  (forall a, In a (GitHubRelease.assets release) ->
             GitHubReleaseAsset.name a <> extensionName ++ ".tar.gz").
Proof.
  unfold findAsset. split.
  - intros H a Ha E.
    apply (find_none _ _ H) in Ha. rewrite E, String.eqb_refl in Ha. discriminate.
  - intros H. destruct (find _ _) as [a|] eqn:F; [|reflexivity].
    apply find_some in F. destruct F as [Ha E].
    apply String.eqb_eq in E. destruct (H a Ha E).
Qed.

(** C1 (amended): for a tag with the prefix ["<extensionName>@v"], the
    version that [parseExtensionRelease] extracts, and stores in the
    [version] field of a non-null result, is the text after the first
    occurrence of ["@v"] up to the next occurrence of ["@v"], or up to the
    end of the tag when ["@v"] does not occur again; so it is everything
    after the first occurrence exactly when that remainder holds no further
    ["@v"]. *)
Theorem extracted_version_ends_at_next_marker release extensionName manifest :
  startsWith (GitHubRelease.tagName release) (extensionName ++ "@v") = true ->
  exists rest,
    afterFirst "@v" (GitHubRelease.tagName release) = Some rest /\
    extractVersion (GitHubRelease.tagName release) = Some (upToFirst "@v" rest) /\
    (forall v, parseExtensionRelease release extensionName manifest = Some v ->
               ExtensionVersion.version v = upToFirst "@v" rest) /\
    (afterFirst "@v" rest = None ->
     extractVersion (GitHubRelease.tagName release)
     = afterFirst "@v" (GitHubRelease.tagName release)).
Proof.
  intros P. destruct (startsWith_cut _ _ _ P) as (b & rest & C).
  exists rest. unfold afterFirst. rewrite C. split; [reflexivity|].
  pose proof (extractVersion_cut _ _ _ C) as E. split; [exact E|]. split.
  - intros v Hv.
    destruct (parseExtensionRelease_Some _ _ _ _ Hv) as (a & ver & _ & _ & E' & _ & ->).
    unfold extractVersion in E'. rewrite E in E'. injection E' as <-. reflexivity.
  - unfold extractVersion. rewrite E. unfold upToFirst.
    destruct (cut "@v" rest) as [[x y]|]; [discriminate|reflexivity].
Qed.

(** C2: [parseExtensionRelease] returns [null] exactly when the tag lacks the
    prefix ["<extensionName>@v"], or no asset is named
    ["<extensionName>.tar.gz"], or the extracted version is not a valid
    semantic version; the body of the release has no part in it. *)
Theorem parseExtensionRelease_null_iff release extensionName manifest :
  (parseExtensionRelease release extensionName manifest = None <->
     startsWith (GitHubRelease.tagName release) (extensionName ++ "@v") = false
     \/ (forall a, In a (GitHubRelease.assets release) ->
                   GitHubReleaseAsset.name a <> extensionName ++ ".tar.gz")
     \/ match extractVersion (GitHubRelease.tagName release) with
        | Some version => semverValid version
        | None => None
        end = None)
  /\ (forall body,
        parseExtensionRelease (withBody release body) extensionName manifest = None <->
        parseExtensionRelease release extensionName manifest = None).
Proof.
  assert (main : forall rel,
    parseExtensionRelease rel extensionName manifest = None <->
      startsWith (GitHubRelease.tagName rel) (extensionName ++ "@v") = false
      \/ findAsset rel extensionName = None
      \/ match extractVersion (GitHubRelease.tagName rel) with
         | Some version => semverValid version
         | None => None
         end = None).
  { intros rel. unfold parseExtensionRelease.
    destruct (startsWith _ _); cbn [negb]; [|tauto].
    destruct (findAsset rel extensionName); [|tauto].
    destruct (extractVersion _) as [version|]; [|tauto].
    destruct (semverValid version); [|tauto].
    split; [discriminate|]. intros [H|[H|H]]; discriminate. }
  split.
  - rewrite main, findAsset_None. reflexivity.
  - intros body. rewrite !main. reflexivity.
Qed.

(** C5: a non-null result always has a [minimumConnectVersion] (the field is
    not optional): the value of the body's [minimumConnectVersion] when the
    body is valid JSON carrying a truthy one, for a string a non-empty one;
    the manifest's when the body is not valid JSON, or carries no such field,
    or an empty one. *)
Theorem minimumConnectVersion_body_then_manifest release extensionName manifest v :
  parseExtensionRelease release extensionName manifest = Some v ->
  let fromManifest :=
    VStr (ExtensionInfo.minimumConnectVersion (ExtensionManifest.extension manifest)) in
  (JSON_parse (GitHubRelease.body release) = None ->
     ExtensionVersion.minimumConnectVersion v = fromManifest)
  /\ (forall parsed, JSON_parse (GitHubRelease.body release) = Some parsed ->
        (forall s, field parsed "minimumConnectVersion" = Some (VStr s) -> s <> EmptyString ->
           ExtensionVersion.minimumConnectVersion v = VStr s)
        /\ (field parsed "minimumConnectVersion" = None ->
             ExtensionVersion.minimumConnectVersion v = fromManifest)
        /\ (field parsed "minimumConnectVersion" = Some (VStr EmptyString) ->
             ExtensionVersion.minimumConnectVersion v = fromManifest)
        /\ (forall x, field parsed "minimumConnectVersion" = Some x ->
             ExtensionVersion.minimumConnectVersion v
             = if truthy x then x else fromManifest)).
Proof.
  intros Hv fromManifest.
  destruct (parseExtensionRelease_Some _ _ _ _ Hv) as (a & ver & _ & _ & _ & _ & ->).
  cbn [ExtensionVersion.minimumConnectVersion].
  unfold pickMinimumConnectVersion, parseBody. split.
  - intros ->. reflexivity.
  - intros parsed ->. repeat split.
    + intros s -> Hs. cbn [truthy].
      destruct (String.eqb_spec s EmptyString); [contradiction|reflexivity].
    + intros ->. reflexivity.
    + intros ->. reflexivity.
    + intros x ->. reflexivity.
Qed.

(** C6: in a non-null result [requiredFeatures] is the body's value when the
    body carries a non-empty one, else the manifest's list when that is not
    empty, else the field is left out, and it is never an empty list nor
    [null]; [requiredEnvironment] is the body's value when the body carries
    one, else the manifest's [environment] when it has one, else the field is
    left out. *)
Theorem required_fields_body_then_manifest release extensionName manifest v :
  parseExtensionRelease release extensionName manifest = Some v ->
  let metadata := parseBody (GitHubRelease.body release) in
  let info := ExtensionManifest.extension manifest in
  ((forall items, field metadata "requiredFeatures" = Some (VArr items) -> items <> [] ->
      ExtensionVersion.requiredFeatures v = Some (VArr items))
   /\ (field metadata "requiredFeatures" = None
       \/ field metadata "requiredFeatures" = Some (VArr []) ->
       (forall f fs, ExtensionInfo.requiredFeatures info = Some (f :: fs) ->
          ExtensionVersion.requiredFeatures v = Some (featuresValue (f :: fs)))
       /\ (ExtensionInfo.requiredFeatures info = Some []
           \/ ExtensionInfo.requiredFeatures info = None ->
           ExtensionVersion.requiredFeatures v = None))
   /\ ExtensionVersion.requiredFeatures v <> Some (VArr [])
   /\ ExtensionVersion.requiredFeatures v <> Some VNull)
  /\ ((forall props, field metadata "requiredEnvironment" = Some (VObj props) ->
        ExtensionVersion.requiredEnvironment v = Some (VObj props))
      /\ (field metadata "requiredEnvironment" = None ->
          (forall e, ExtensionManifest.environment manifest = Some e ->
             ExtensionVersion.requiredEnvironment v = Some (environmentValue e))
          /\ (ExtensionManifest.environment manifest = None ->
              ExtensionVersion.requiredEnvironment v = None))
      /\ ExtensionVersion.requiredEnvironment v <> Some VNull).
Proof.
  intros Hv metadata info.
  destruct (parseExtensionRelease_Some _ _ _ _ Hv) as (a & ver & _ & _ & _ & _ & ->).
  cbn [ExtensionVersion.requiredFeatures ExtensionVersion.requiredEnvironment].
  fold metadata. split.
  - unfold pickRequiredFeatures, manifestFeatures. fold info. repeat split.
    + intros items -> Hne. destruct items; [contradiction|reflexivity].
    + intros f fs ->. destruct H as [-> | ->]; reflexivity.
    + destruct H as [-> | ->]; cbn [lengthTruthy]; intros [-> | ->]; reflexivity.
    + destruct (field metadata "requiredFeatures") as [x|].
      * destruct (lengthTruthy x) eqn:L.
        -- intros [= ->]. discriminate.
        -- destruct (ExtensionInfo.requiredFeatures info) as [[|f fs]|]; discriminate.
      * destruct (ExtensionInfo.requiredFeatures info) as [[|f fs]|]; discriminate.
    + destruct (field metadata "requiredFeatures") as [x|].
      * destruct (lengthTruthy x) eqn:L.
        -- intros [= ->]. discriminate.
        -- destruct (ExtensionInfo.requiredFeatures info) as [[|f fs]|]; discriminate.
      * destruct (ExtensionInfo.requiredFeatures info) as [[|f fs]|]; discriminate.
  - unfold pickRequiredEnvironment, manifestEnvironment. repeat split.
    + intros props ->. reflexivity.
    + intros e ->. rewrite H. reflexivity.
    + intros ->. rewrite H. reflexivity.
    + destruct (field metadata "requiredEnvironment") as [x|].
      * destruct (truthy x) eqn:T.
        -- intros [= ->]. discriminate.
        -- destruct (ExtensionManifest.environment manifest); discriminate.
      * destruct (ExtensionManifest.environment manifest); discriminate.
Qed.

Lemma carriesMetadata_false parsed :
  carriesMetadata parsed = false ->
  field parsed "minimumConnectVersion" = None
  /\ field parsed "requiredFeatures" = None
  /\ field parsed "requiredEnvironment" = None.
Proof.
  destruct parsed as [| | | | |props]; cbn [carriesMetadata field]; auto.
  destruct (lookup "minimumConnectVersion" props),
           (lookup "requiredFeatures" props),
           (lookup "requiredEnvironment" props); try discriminate; auto.
Qed.

(** C10: when the body is valid JSON but its value is not an object carrying
    a metadata field ([null], a boolean, a number, a string, an array, an
    object without the three properties), the result is the one obtained for
    a body that is not valid JSON, and in a non-null result the three
    metadata fields are the manifest's.  The function is total: the only
    call that can throw is [JSON.parse], inside the [try]. *)
Theorem valid_json_without_metadata_as_invalid_json
  release extensionName manifest parsed notJson :
  JSON_parse (GitHubRelease.body release) = Some parsed ->
  carriesMetadata parsed = false ->
  JSON_parse notJson = None ->
  parseExtensionRelease release extensionName manifest
  = parseExtensionRelease (withBody release notJson) extensionName manifest
  /\ (forall v, parseExtensionRelease release extensionName manifest = Some v ->
        ExtensionVersion.minimumConnectVersion v
        = VStr (ExtensionInfo.minimumConnectVersion (ExtensionManifest.extension manifest))
        /\ ExtensionVersion.requiredFeatures v = manifestFeatures manifest
        /\ ExtensionVersion.requiredEnvironment v = manifestEnvironment manifest)
  /\ (carriesMetadata VNull = false
      /\ (forall b, carriesMetadata (VBool b) = false)
      /\ (forall x, carriesMetadata (VNum x) = false)
      /\ (forall s, carriesMetadata (VStr s) = false)
      /\ (forall items, carriesMetadata (VArr items) = false)).
Proof.
  intros Hp Hc Hn.
  destruct (carriesMetadata_false parsed Hc) as (F1 & F2 & F3).
  assert (P1 : pickMinimumConnectVersion (parseBody (GitHubRelease.body release)) manifest
               = pickMinimumConnectVersion (parseBody notJson) manifest).
  { unfold pickMinimumConnectVersion, parseBody. rewrite Hp, Hn, F1. reflexivity. }
  assert (P2 : pickRequiredFeatures (parseBody (GitHubRelease.body release)) manifest
               = pickRequiredFeatures (parseBody notJson) manifest).
  { unfold pickRequiredFeatures, parseBody. rewrite Hp, Hn, F2. reflexivity. }
  assert (P3 : pickRequiredEnvironment (parseBody (GitHubRelease.body release)) manifest
               = pickRequiredEnvironment (parseBody notJson) manifest).
  { unfold pickRequiredEnvironment, parseBody. rewrite Hp, Hn, F3. reflexivity. }
  split; [|split].
  - unfold parseExtensionRelease, findAsset.
    cbn [withBody GitHubRelease.tagName GitHubRelease.assets GitHubRelease.body
         GitHubRelease.publishedAt].
    rewrite P1, P2, P3. reflexivity.
  - intros v Hv.
    destruct (parseExtensionRelease_Some _ _ _ _ Hv) as (a & ver & _ & _ & _ & _ & ->).
    cbn [ExtensionVersion.minimumConnectVersion ExtensionVersion.requiredFeatures
         ExtensionVersion.requiredEnvironment].
    unfold pickMinimumConnectVersion, pickRequiredFeatures, pickRequiredEnvironment,
      parseBody.
    rewrite Hp, F1, F2, F3. auto.
  - repeat split.
Qed.

End ParseExtensionRelease.

(** ** Sorting with a comparator *)

Section SortBy.
Context {A : Type} (cmp : A -> A -> Z) (P : A -> Prop).

Lemma insertBy_perm x l : Permutation (insertBy cmp x l) (x :: l).
Proof.
  induction l as [|y l IH]; cbn [insertBy]; [reflexivity|].
  destruct (cmp x y <=? 0)%Z; [reflexivity|].
  rewrite IH. apply perm_swap.
Qed.

Lemma sortBy_perm l : Permutation (sortBy cmp l) l.
Proof.
  induction l as [|x l IH]; cbn [sortBy fold_right]; [reflexivity|].
  fold (sortBy cmp l). rewrite insertBy_perm, IH. reflexivity.
Qed.

Lemma sortBy_cons x l : sortBy cmp (x :: l) = insertBy cmp x (sortBy cmp l).
Proof. reflexivity. Qed.

Lemma sortBy_Forall l : Forall P l -> Forall P (sortBy cmp l).
Proof.
  intros H. rewrite Forall_forall in *. intros x Hx. apply H.
  apply (Permutation_in _ (sortBy_perm l) Hx).
Qed.

Hypothesis cmp_antisym : forall a b,
  P a -> P b -> Z.sgn (cmp b a) = (- Z.sgn (cmp a b))%Z.
Hypothesis cmp_trans : forall a b c,
  P a -> P b -> P c -> (cmp a b <= 0)%Z -> (cmp b c <= 0)%Z -> (cmp a c <= 0)%Z.

Lemma cmp_swap a b : P a -> P b -> (0 < cmp a b)%Z -> (cmp b a < 0)%Z.
Proof. intros Ha Hb H. pose proof (cmp_antisym a b Ha Hb). lia. Qed.

Lemma insertBy_sorted x l :
  P x -> Forall P l -> StronglySorted (notAfter cmp) l ->
  StronglySorted (notAfter cmp) (insertBy cmp x l).
Proof.
  intros Px Pl Sl. induction Sl as [|y l Sl IH Hy]; cbn [insertBy].
  - constructor; constructor.
  - inversion Pl as [|? ? Py Pl']; subst.
    destruct (cmp x y <=? 0)%Z eqn:C.
    + apply Z.leb_le in C. constructor; [constructor; assumption|].
      constructor; [exact C|].
      rewrite Forall_forall in *. intros z Hz.
      apply (cmp_trans x y z); auto. apply Hy, Hz.
    + apply Z.leb_gt in C. constructor; [apply IH, Pl'|].
      rewrite Forall_forall. intros z Hz.
      apply (Permutation_in _ (insertBy_perm x l)) in Hz.
      destruct Hz as [<-|Hz].
      * pose proof (cmp_swap x y Px Py C). unfold notAfter. lia.
      * rewrite Forall_forall in Hy. apply Hy, Hz.
Qed.

(** The result is in order: no element comes after a later one. *)
Lemma sortBy_sorted l : Forall P l -> StronglySorted (notAfter cmp) (sortBy cmp l).
Proof.
  induction l as [|x l IH]; intros Pl.
  - constructor.
  - inversion Pl; subst. rewrite sortBy_cons.
    apply insertBy_sorted; auto using sortBy_Forall.
Qed.

Lemma insertBy_filter z x l :
  P z -> P x -> Forall P l ->
  filter (fun y => cmp z y =? 0)%Z (insertBy cmp x l)
  = filter (fun y => cmp z y =? 0)%Z (x :: l).
Proof.
  intros Pz Px Pl. induction l as [|y l IH]; cbn [insertBy]; [reflexivity|].
  inversion Pl as [|? ? Py Pl']; subst.
  destruct (cmp x y <=? 0)%Z eqn:C; [reflexivity|].
  apply Z.leb_gt in C. cbn [filter]. rewrite (IH Pl'). cbn [filter].
  destruct (cmp z y =? 0)%Z eqn:Ey, (cmp z x =? 0)%Z eqn:Ex; try reflexivity.
  apply Z.eqb_eq in Ey, Ex. exfalso.
  pose proof (cmp_antisym z x Pz Px).
  assert (cmp x y <= 0)%Z by (apply (cmp_trans x z y); auto; lia).
  lia.
Qed.

(** The sort is stable: the elements that rank with [z] keep their order. *)
Lemma sortBy_stable z l :
  P z -> Forall P l ->
  filter (fun y => cmp z y =? 0)%Z (sortBy cmp l)
  = filter (fun y => cmp z y =? 0)%Z l.
Proof.
  intros Pz. induction l as [|x l IH]; intros Pl; [reflexivity|].
  inversion Pl; subst. rewrite sortBy_cons, insertBy_filter; auto using sortBy_Forall.
  cbn [filter]. rewrite IH by assumption. reflexivity.
Qed.

End SortBy.

Lemma In_keep {A : Type} (x : A) (l : list (option A)) :
  In x (keep l) <-> In (Some x) l.
Proof.
  induction l as [|[y|] l IH]; cbn [keep In]; rewrite ?IH; intuition congruence.
Qed.

(** ** buildExtensions *)

Section BuildExtensions.
Context {rt : Runtime}.

Lemma parsedReleases_valid manifest releases :
  Forall validVersion (parsedReleases manifest releases).
Proof.
  rewrite Forall_forall. intros v Hv.
  unfold parsedReleases in Hv. rewrite In_keep, in_map_iff in Hv.
  destruct Hv as (r & Hr & _).
  destruct (parseExtensionRelease_Some _ _ _ _ Hr) as (a & ver & _ & _ & _ & V & ->).
  exact V.
Qed.

(** What a pushed extension says about its manifest. *)
Lemma buildExtension_Some manifest releases e :
  buildExtension manifest releases = Some e ->
  ExtensionInfo.version (ExtensionManifest.extension manifest) <> "0.0.0"
  /\ Extension.name e = ExtensionInfo.name (ExtensionManifest.extension manifest)
  /\ Extension.versions e = sortBy byVersion (parsedReleases manifest releases)
  /\ Extension.versions e <> []
  /\ nth_error (Extension.versions e) 0 = Some (Extension.latestVersion e).
Proof.
  unfold buildExtension.
  destruct (String.eqb_spec
              (ExtensionInfo.version (ExtensionManifest.extension manifest)) "0.0.0")
    as [|Hne]; [discriminate|].
  destruct (sortBy byVersion (parsedReleases manifest releases)) as [|latest rest] eqn:S;
    [discriminate|].
  intros [= <-]. cbn. repeat split; try assumption; discriminate.
Qed.

Lemma In_buildExtensions manifests releases e :
  In e (buildExtensions manifests releases) <->
  exists key manifest,
    In (key, manifest) manifests /\ buildExtension manifest releases = Some e.
Proof.
  unfold buildExtensions. split.
  - intros H. apply (Permutation_in _ (sortBy_perm _ _)) in H.
    rewrite In_keep, in_map_iff in H. destruct H as ([key manifest] & Hb & Hin).
    exists key, manifest. auto.
  - intros (key & manifest & Hin & Hb).
    apply (Permutation_in _ (Permutation_sym (sortBy_perm _ _))).
    rewrite In_keep, in_map_iff. exists (key, manifest). auto.
Qed.

(** C3: every extension that [buildExtensions] emits has a non-empty
    [versions] list and was pushed for a manifest whose version is not
    ["0.0.0"]; a manifest with version ["0.0.0"] pushes nothing, whatever the
    releases, and neither does one for which no release yields a version;
    the output is made of the pushed extensions and nothing else. *)
Theorem buildExtensions_skips_unreleased manifests releases :
  (forall e, In e (buildExtensions manifests releases) ->
     Extension.versions e <> []
     /\ exists key manifest,
          In (key, manifest) manifests
          /\ buildExtension manifest releases = Some e
          /\ ExtensionInfo.version (ExtensionManifest.extension manifest) <> "0.0.0"
          /\ parsedReleases manifest releases <> [])
  /\ (forall manifest,
        ExtensionInfo.version (ExtensionManifest.extension manifest) = "0.0.0" ->
        buildExtension manifest releases = None)
  /\ (forall manifest,
        parsedReleases manifest releases = [] ->
        buildExtension manifest releases = None)
  /\ Permutation (buildExtensions manifests releases)
       (keep (map (fun entry => buildExtension (snd entry) releases) manifests)).
Proof.
  repeat split.
  - apply In_buildExtensions in H. destruct H as (key & manifest & _ & Hb).
    apply (buildExtension_Some _ _ _ Hb).
  - apply In_buildExtensions in H. destruct H as (key & manifest & Hin & Hb).
    exists key, manifest.
    destruct (buildExtension_Some _ _ _ Hb) as (Hv & _ & Hs & Hne & _).
    repeat split; auto.
    intros E. rewrite E in Hs. apply Hne. exact Hs.
  - intros manifest E. unfold buildExtension. rewrite E. reflexivity.
  - intros manifest E. unfold buildExtension. rewrite E.
    destruct (_ =? _); reflexivity.
  - apply sortBy_perm.
Qed.

Section Versions.
Context {semverLaws : ConsistentSemver rt}.

Lemma byVersion_antisym a b :
  validVersion a -> validVersion b ->
  Z.sgn (byVersion b a) = (- Z.sgn (byVersion a b))%Z.
Proof. intros Ha Hb. apply semverRcompare_antisym; assumption. Qed.

Lemma byVersion_trans a b c :
  validVersion a -> validVersion b -> validVersion c ->
  (byVersion a b <= 0)%Z -> (byVersion b c <= 0)%Z -> (byVersion a c <= 0)%Z.
Proof. intros Ha Hb Hc. apply semverRcompare_trans; assumption. Qed.

(** C4: for every emitted extension, [versions] holds exactly the non-null
    results of [parseExtensionRelease], in descending precedence (no version
    comes after a later one under [semverRcompare]), versions of equal
    precedence in their input order, and [latestVersion] is [versions[0]];
    with the versions "1.0.0" and "0.9.0" kept, "1.0.0" ranking higher,
    [versions[0].version] and [latestVersion.version] are "1.0.0". *)
Theorem versions_sorted_latest_first manifests releases e :
  In e (buildExtensions manifests releases) ->
  exists key manifest,
    In (key, manifest) manifests
    /\ Permutation (Extension.versions e) (parsedReleases manifest releases)
    /\ StronglySorted (notAfter byVersion) (Extension.versions e)
    /\ (forall v, semverValid (ExtensionVersion.version v) <> None ->
         filter (fun w => byVersion v w =? 0)%Z (Extension.versions e)
         = filter (fun w => byVersion v w =? 0)%Z (parsedReleases manifest releases))
    /\ nth_error (Extension.versions e) 0 = Some (Extension.latestVersion e)
    /\ ((0 < semverRcompare "0.9.0" "1.0.0")%Z ->
        Permutation (map ExtensionVersion.version (parsedReleases manifest releases))
                    ["1.0.0"; "0.9.0"] ->
        option_map ExtensionVersion.version (nth_error (Extension.versions e) 0)
        = Some "1.0.0"
        /\ ExtensionVersion.version (Extension.latestVersion e) = "1.0.0").
Proof.
  intros He. apply In_buildExtensions in He. destruct He as (key & manifest & Hin & Hb).
  exists key, manifest.
  destruct (buildExtension_Some _ _ _ Hb) as (_ & _ & Hs & _ & Hl).
  pose proof (parsedReleases_valid manifest releases) as Hvalid.
  split; [exact Hin|]. split; [rewrite Hs; apply sortBy_perm|].
  split.
  { rewrite Hs.
    apply (sortBy_sorted byVersion validVersion byVersion_antisym byVersion_trans).
    exact Hvalid. }
  split.
  { intros v Hv. rewrite Hs.
    apply (sortBy_stable byVersion validVersion byVersion_antisym byVersion_trans);
      assumption. }
  split; [exact Hl|].
  intros Hgt Hperm.
  assert (Hhead : option_map ExtensionVersion.version (nth_error (Extension.versions e) 0)
                  = Some "1.0.0").
  { rewrite Hs.
    apply Permutation_sym, Permutation_length_2_inv in Hperm.
    destruct (parsedReleases manifest releases) as [|a [|b [|c l]]];
      cbn [map] in Hperm; try (destruct Hperm; discriminate).
    inversion Hvalid as [|? ? Va Hvalid']; subst.
    inversion Hvalid' as [|? ? Vb _]; subst.
    cbn [sortBy fold_right insertBy]. unfold byVersion at 1.
    unfold validVersion in Va, Vb.
    destruct Hperm as [[= Ea Eb]|[= Ea Eb]]; rewrite Ea, Eb in *.
    - pose proof (semverRcompare_antisym "0.9.0" "1.0.0" Vb Va) as An.
      destruct (semverRcompare "1.0.0" "0.9.0" <=? 0)%Z eqn:C.
      + cbn. rewrite Ea. reflexivity.
      + apply Z.leb_gt in C. lia.
    - destruct (semverRcompare "0.9.0" "1.0.0" <=? 0)%Z eqn:C.
      + apply Z.leb_le in C. lia.
      + cbn. rewrite Eb. reflexivity. }
  split; [exact Hhead|].
  rewrite Hl in Hhead. cbn in Hhead. congruence.
Qed.

End Versions.

Section Names.
Context {collationLaws : ConsistentCollation rt}.

(** C8: the list that [buildExtensions] returns is in ascending order of
    [name] under [localeCompare]; with the manifests "zebra" and "alpha",
    each with one release that yields a version, and "alpha" collating
    before "zebra", the names come out as ["alpha"; "zebra"]. *)
Theorem extensions_sorted_by_name manifests releases :
  StronglySorted (notAfter byName) (buildExtensions manifests releases)
  /\ (forall keyZ zebra keyA alpha,
        ExtensionInfo.name (ExtensionManifest.extension zebra) = "zebra" ->
        ExtensionInfo.name (ExtensionManifest.extension alpha) = "alpha" ->
        ExtensionInfo.version (ExtensionManifest.extension zebra) <> "0.0.0" ->
        ExtensionInfo.version (ExtensionManifest.extension alpha) <> "0.0.0" ->
        List.length (parsedReleases zebra releases) = 1 ->
        List.length (parsedReleases alpha releases) = 1 ->
        (localeCompare "alpha" "zebra" < 0)%Z ->
        map Extension.name (buildExtensions [(keyZ, zebra); (keyA, alpha)] releases)
        = ["alpha"; "zebra"]
        /\ map Extension.name (buildExtensions [(keyA, alpha); (keyZ, zebra)] releases)
           = ["alpha"; "zebra"]).
Proof.
  split.
  - unfold buildExtensions.
    apply (sortBy_sorted byName (fun _ => True)).
    + intros a b _ _. apply localeCompare_antisym.
    + intros a b c _ _ _. apply localeCompare_trans.
    + rewrite Forall_forall. auto.
  - intros keyZ zebra keyA alpha Nz Na Vz Va Lz La Hlt.
    assert (built : forall m,
      ExtensionInfo.version (ExtensionManifest.extension m) <> "0.0.0" ->
      List.length (parsedReleases m releases) = 1 ->
      exists x, buildExtension m releases = Some x
                /\ Extension.name x = ExtensionInfo.name (ExtensionManifest.extension m)).
    { intros m Vm Lm. unfold buildExtension.
      destruct (String.eqb_spec
                  (ExtensionInfo.version (ExtensionManifest.extension m)) "0.0.0");
        [contradiction|].
      destruct (parsedReleases m releases) as [|v [|w l]]; try discriminate.
      cbn. eexists. split; reflexivity. }
    destruct (built zebra Vz Lz) as (z & Bz & Ez).
    destruct (built alpha Va La) as (a & Ba & Ea).
    rewrite Nz in Ez. rewrite Na in Ea.
    pose proof (localeCompare_antisym "alpha" "zebra") as An.
    unfold buildExtensions. cbn [map snd keep]. rewrite Bz, Ba.
    cbn [keep sortBy fold_right insertBy]. unfold byName. rewrite Ez, Ea.
    destruct (localeCompare "zebra" "alpha" <=? 0)%Z eqn:C1;
      [apply Z.leb_le in C1; lia|].
    destruct (localeCompare "alpha" "zebra" <=? 0)%Z eqn:C2;
      [|apply Z.leb_gt in C2; lia].
    cbn [map]. rewrite Ez, Ea. split; reflexivity.
Qed.

End Names.

End BuildExtensions.

(** ** Three-way comparisons *)

Section Lawful.
Context {A : Type} (c : A -> A -> comparison) (Hc : lawful c).

Lemma lawful_eq_compat x y z : c x y = Eq -> c x z = c y z.
Proof.
  destruct Hc as [anti trans]. intros E.
  pose proof (anti x y) as Ayx. rewrite E in Ayx. cbn in Ayx.
  pose proof (trans x y z) as T1. pose proof (trans y x z) as T2.
  pose proof (trans z x y) as T3. pose proof (trans z y x) as T4.
  pose proof (anti x z) as Azx. pose proof (anti y z) as Azy.
  rewrite E in T1, T3. rewrite Ayx in T2, T4. rewrite Azx in T3. rewrite Azy in T4.
  destruct (c x z), (c y z); cbn in *; try reflexivity; exfalso;
    first [ apply T1; congruence | apply T2; congruence
          | apply T3; congruence | apply T4; congruence ].
Qed.

Lemma lawful_lt_le x y z : c x y = Lt -> c y z <> Gt -> c x z = Lt.
Proof.
  destruct Hc as [anti trans]. intros L H.
  pose proof (trans x y z) as T1. rewrite L in T1.
  pose proof (trans y z x) as T2. pose proof (anti x y) as Ayx.
  pose proof (anti x z) as Azx. rewrite L in Ayx. cbn in Ayx.
  rewrite Azx, Ayx in T2.
  destruct (c x z); cbn in *; [exfalso; apply T2; congruence | reflexivity
                              | exfalso; apply T1; congruence].
Qed.

Lemma lawful_key {B : Type} (f : B -> A) : lawful (fun x y => c (f x) (f y)).
Proof. destruct Hc as [anti trans]. split; intros; eauto. Qed.

End Lawful.

Lemma lawful_thenCompare {A : Type} (c d : A -> A -> comparison) :
  lawful c -> lawful d -> lawful (fun x y => Semver.thenCompare (c x y) (d x y)).
Proof.
  intros Lc Ld. split.
  - intros x y. destruct Lc as [ac _], Ld as [ad _]. rewrite ac, ad.
    destruct (c x y); reflexivity.
  - intros x y z. destruct (c x y) eqn:Cxy; cbn [Semver.thenCompare].
    + rewrite (lawful_eq_compat c Lc x y z Cxy).
      destruct (c y z); cbn [Semver.thenCompare]; try congruence.
      apply (proj2 Ld).
    + intros _ H.
      assert (c y z <> Gt) by (destruct (c y z); cbn in H; congruence).
      rewrite (lawful_lt_le c Lc x y z Cxy); [discriminate | assumption].
    + congruence.
Qed.

Lemma lawful_N : lawful N.compare.
Proof.
  split.
  - intros x y. apply N.compare_antisym.
  - intros x y z. rewrite !N.compare_gt_iff. lia.
Qed.

Lemma lawful_string : lawful String.compare.
Proof.
  split.
  - intros x y. apply String.compare_antisym.
  - intros x y z Hxy Hyz Hxz.
    assert (lt_of : forall a b, String.compare a b <> Gt ->
                                a = b \/ String_as_OT.lt a b).
    { intros a b H. destruct (String.compare a b) eqn:E; [| |congruence].
      - left. apply String.compare_eq_iff, E.
      - right. apply String_as_OT.cmp_lt, E. }
    assert (Hzx : String_as_OT.lt z x).
    { apply String_as_OT.cmp_lt. unfold String_as_OT.cmp.
      rewrite String.compare_antisym, Hxz. reflexivity. }
    destruct (lt_of x y Hxy) as [->|Lxy], (lt_of y z Hyz) as [->|Lyz].
    + apply (String_as_OT.lt_not_eq _ _ Hzx). reflexivity.
    + apply (String_as_OT.lt_not_eq _ _ (String_as_OT.lt_trans _ _ _ Hzx Lyz)).
      reflexivity.
    + apply (String_as_OT.lt_not_eq _ _ (String_as_OT.lt_trans _ _ _ Hzx Lxy)).
      reflexivity.
    + apply (String_as_OT.lt_not_eq _ _
               (String_as_OT.lt_trans _ _ _ Hzx (String_as_OT.lt_trans _ _ _ Lxy Lyz))).
      reflexivity.
Qed.

Lemma comparisonZ_sgn c : Z.sgn (comparisonZ c) = comparisonZ c.
Proof. destruct c; reflexivity. Qed.

Lemma comparisonZ_opp c : comparisonZ (CompOpp c) = (- comparisonZ c)%Z.
Proof. destruct c; reflexivity. Qed.

Lemma comparisonZ_le c : (comparisonZ c <= 0)%Z <-> c <> Gt.
Proof. destruct c; cbn; split; intros; try lia; congruence. Qed.

Lemma defaultCompare_antisym a b :
  Z.sgn (defaultCompare b a) = (- Z.sgn (defaultCompare a b))%Z.
Proof.
  unfold defaultCompare.
  rewrite !comparisonZ_sgn, (proj1 lawful_string a b). apply comparisonZ_opp.
Qed.

Lemma defaultCompare_trans a b c :
  (defaultCompare a b <= 0)%Z -> (defaultCompare b c <= 0)%Z ->
  (defaultCompare a c <= 0)%Z.
Proof.
  unfold defaultCompare. rewrite !comparisonZ_le. apply (proj2 lawful_string).
Qed.

(** ** collectTagsAndFeatures and buildOutput *)

Lemma In_setAdd set x t : In t (setAdd set x) <-> In t set \/ t = x.
Proof.
  unfold setAdd. destruct (existsb (String.eqb x) set) eqn:E.
  - split; [auto|]. intros [H| ->]; [exact H|].
    apply existsb_exists in E. destruct E as (y & Hy & Exy).
    apply String.eqb_eq in Exy. rewrite Exy. exact Hy.
  - rewrite in_app_iff. cbn [In]. intuition congruence.
Qed.

Lemma NoDup_setAdd set x : NoDup set -> NoDup (setAdd set x).
Proof.
  intros H. unfold setAdd. destruct (existsb (String.eqb x) set) eqn:E; [exact H|].
  apply NoDup_app; [exact H | repeat constructor; auto |].
  intros y Hy [Exy|[]].
  assert (existsb (String.eqb x) set = true); [|congruence].
  apply existsb_exists. exists y. split; [exact Hy | apply String.eqb_eq, Exy].
Qed.

Lemma In_fold_setAdd l set t :
  In t (fold_left setAdd l set) <-> In t set \/ In t l.
Proof.
  revert set. induction l as [|x l IH]; intros set; cbn [fold_left In].
  - tauto.
  - rewrite IH, In_setAdd. intuition congruence.
Qed.

Lemma In_addAll set xs t :
  In t (addAll set xs) <-> In t set \/ exists l, xs = Some l /\ In t l.
Proof.
  unfold addAll. rewrite In_fold_setAdd. destruct xs as [l|]; cbn [In].
  - split.
    + intros [H|H]; [left; exact H | right; exists l; auto].
    + intros [H|(l' & E & H)]; [left; exact H|right].
      injection E as E. rewrite E. exact H.
  - split.
    + intros [H|[]]. left; exact H.
    + intros [H|(l' & E & _)]; [left; exact H | discriminate].
Qed.

Lemma NoDup_addAll set xs : NoDup set -> NoDup (addAll set xs).
Proof.
  unfold addAll. generalize (match xs with Some l => l | None => [] end) as l.
  intros l. revert set. induction l as [|x l IH]; intros set H; cbn [fold_left].
  - exact H.
  - apply IH, NoDup_setAdd, H.
Qed.

Lemma collect_fold manifests acc :
  let result := fold_left collectStep manifests acc in
  (forall t, In t (TagsAndFeatures.allTags result) <->
             In t (TagsAndFeatures.allTags acc)
             \/ exists key manifest l,
                 In (key, manifest) manifests
                 /\ ExtensionInfo.tags (ExtensionManifest.extension manifest) = Some l
                 /\ In t l)
  /\ (forall t, In t (TagsAndFeatures.allFeatures result) <->
                In t (TagsAndFeatures.allFeatures acc)
                \/ exists key manifest l,
                    In (key, manifest) manifests
                    /\ ExtensionInfo.requiredFeatures (ExtensionManifest.extension manifest)
                       = Some l
                    /\ In t l)
  /\ (NoDup (TagsAndFeatures.allTags acc) -> NoDup (TagsAndFeatures.allTags result))
  /\ (NoDup (TagsAndFeatures.allFeatures acc) ->
      NoDup (TagsAndFeatures.allFeatures result)).
Proof.
  revert acc. induction manifests as [|[key manifest] manifests IH]; intros acc;
    cbn [fold_left].
  - cbn zeta. repeat split; auto; intros [H|(k & m & l & [] & _)]; exact H.
  - destruct (IH (collectStep acc (key, manifest))) as (T & F & DT & DF).
    cbn zeta. split; [|split; [|split]].
    + intros t. rewrite T. unfold collectStep at 1.
      cbn [TagsAndFeatures.allTags snd]. rewrite In_addAll. split.
      * intros [[H|(l & E & H)]|(k & m & l & Hin & E & H)].
        -- left; exact H.
        -- right. exists key, manifest, l. cbn [In]. auto.
        -- right. exists k, m, l. cbn [In]. auto.
      * intros [H|(k & m & l & Hin & E & H)]; [auto|].
        destruct Hin as [Heq|Hin].
        -- injection Heq as -> ->. eauto.
        -- right. exists k, m, l. auto.
    + intros t. rewrite F. unfold collectStep at 1.
      cbn [TagsAndFeatures.allFeatures snd]. rewrite In_addAll. split.
      * intros [[H|(l & E & H)]|(k & m & l & Hin & E & H)].
        -- left; exact H.
        -- right. exists key, manifest, l. cbn [In]. auto.
        -- right. exists k, m, l. cbn [In]. auto.
      * intros [H|(k & m & l & Hin & E & H)]; [auto|].
        destruct Hin as [Heq|Hin].
        -- injection Heq as -> ->. eauto.
        -- right. exists k, m, l. auto.
    + intros H. apply DT. apply NoDup_addAll, H.
    + intros H. apply DF. apply NoDup_addAll, H.
Qed.

Lemma sorted_nodup_strict l :
  StronglySorted (notAfter defaultCompare) l -> NoDup l ->
  StronglySorted strictlyBefore l.
Proof.
  induction 1 as [|x l Sl IH Hx]; intros Hn; [constructor|].
  inversion Hn as [|? ? Hnotin Hn']; subst.
  constructor; [apply IH, Hn'|].
  rewrite Forall_forall in *. intros y Hy.
  specialize (Hx y Hy). unfold notAfter, defaultCompare in Hx.
  apply comparisonZ_le in Hx. unfold strictlyBefore.
  destruct (String.compare x y) eqn:E; [|reflexivity|destruct Hx; reflexivity].
  apply String.compare_eq_iff in E. subst y. contradiction.
Qed.

Lemma sort_strings l :
  NoDup l ->
  Permutation (sortBy defaultCompare l) l
  /\ StronglySorted strictlyBefore (sortBy defaultCompare l)
  /\ NoDup (sortBy defaultCompare l).
Proof.
  intros Hn.
  assert (Hd : NoDup (sortBy defaultCompare l)).
  { apply (Permutation_NoDup (Permutation_sym (sortBy_perm _ l)) Hn). }
  split; [apply sortBy_perm|]. split; [|exact Hd].
  apply sorted_nodup_strict; [|exact Hd].
  apply (sortBy_sorted defaultCompare (fun _ => True)).
  - intros a b _ _. apply defaultCompare_antisym.
  - intros a b c _ _ _. apply defaultCompare_trans.
  - rewrite Forall_forall. auto.
Qed.

(** C9: [collectTagsAndFeatures] returns two duplicate-free sets, the tags
    that occur in some manifest's [tags] and the features that occur in some
    manifest's [requiredFeatures], an undefined list giving nothing;
    [buildOutput] copies [config.categories], passes the extensions on
    unchanged, and emits the members of each set once each, in strictly
    ascending code unit order. *)
Theorem tags_and_features_collected_then_sorted manifests :
  (let collected := collectTagsAndFeatures manifests in
   (forall t, In t (TagsAndFeatures.allTags collected) <->
              exists key manifest l,
                In (key, manifest) manifests
                /\ ExtensionInfo.tags (ExtensionManifest.extension manifest) = Some l
                /\ In t l)
   /\ (forall t, In t (TagsAndFeatures.allFeatures collected) <->
                 exists key manifest l,
                   In (key, manifest) manifests
                   /\ ExtensionInfo.requiredFeatures (ExtensionManifest.extension manifest)
                      = Some l
                   /\ In t l)
   /\ NoDup (TagsAndFeatures.allTags collected)
   /\ NoDup (TagsAndFeatures.allFeatures collected))
  /\ (forall extensions config allTags allFeatures,
        NoDup allTags -> NoDup allFeatures ->
        let output := buildOutput extensions config allTags allFeatures in
        GalleryOutput.categories output = GalleryConfig.categories config
        /\ GalleryOutput.extensions output = extensions
        /\ Permutation (GalleryOutput.tags output) allTags
        /\ StronglySorted strictlyBefore (GalleryOutput.tags output)
        /\ NoDup (GalleryOutput.tags output)
        /\ Permutation (GalleryOutput.requiredFeatures output) allFeatures
        /\ StronglySorted strictlyBefore (GalleryOutput.requiredFeatures output)
        /\ NoDup (GalleryOutput.requiredFeatures output)).
Proof.
  split.
  - cbn zeta. unfold collectTagsAndFeatures.
    destruct (collect_fold manifests
                {| TagsAndFeatures.allTags := []; TagsAndFeatures.allFeatures := [] |})
      as (T & F & DT & DF).
    cbn zeta in T, F, DT, DF. cbn [TagsAndFeatures.allTags TagsAndFeatures.allFeatures] in *.
    split; [|split; [|split]].
    + intros t. rewrite T. cbn [In]. tauto.
    + intros t. rewrite F. cbn [In]. tauto.
    + apply DT. constructor.
    + apply DF. constructor.
  - intros extensions config allTags allFeatures HT HF. cbn zeta.
    unfold buildOutput.
    cbn [GalleryOutput.categories GalleryOutput.extensions GalleryOutput.tags
         GalleryOutput.requiredFeatures].
    destruct (sort_strings allTags HT) as (PT & ST & DT).
    destruct (sort_strings allFeatures HF) as (PF & SF & DF).
    repeat split; assumption.
Qed.

(** ** transformGitHubApiReleases *)

(** C7: the normaliser returns as many releases as it is given, in the same
    order; the release at each position has the [tag_name] as [tagName], the
    [published_at] as [publishedAt], the same [body], and as many assets in
    the same order, each with its [name] kept and its
    [browser_download_url] as [url]. *)
Theorem transformGitHubApiReleases_renames apiReleases :
  List.length (transformGitHubApiReleases apiReleases) = List.length apiReleases
  /\ (forall i raw, nth_error apiReleases i = Some raw ->
        exists release,
          nth_error (transformGitHubApiReleases apiReleases) i = Some release
          /\ GitHubRelease.tagName release = GitHubApiRelease.tag_name raw
          /\ GitHubRelease.publishedAt release = GitHubApiRelease.published_at raw
          /\ GitHubRelease.body release = GitHubApiRelease.body raw
          /\ List.length (GitHubRelease.assets release)
             = List.length (GitHubApiRelease.assets raw)
          /\ (forall j asset, nth_error (GitHubApiRelease.assets raw) j = Some asset ->
                nth_error (GitHubRelease.assets release) j
                = Some {| GitHubReleaseAsset.name := ApiAsset.name asset;
                          GitHubReleaseAsset.url := ApiAsset.browser_download_url asset |})).
Proof.
  unfold transformGitHubApiReleases. split; [apply length_map|].
  intros i raw H. exists (transformRelease raw).
  split; [apply map_nth_error, H|].
  cbn. repeat split; [apply length_map|].
  intros j asset Hj. apply (map_nth_error transformAsset _ _ Hj).
Qed.

(** ** The reference runtime has consistent comparators *)

Lemma compareIdentifier_lawful : lawful Semver.compareIdentifier.
Proof.
  split.
  - intros [x|x] [y|y]; cbn; try reflexivity.
    + apply N.compare_antisym.
    + apply String.compare_antisym.
  - intros [x|x] [y|y] [z|z]; cbn; try congruence.
    + apply lawful_N.
    + apply lawful_string.
Qed.

Lemma compareIdentifiers_antisym p q :
  Semver.compareIdentifiers q p = CompOpp (Semver.compareIdentifiers p q).
Proof.
  revert q. induction p as [|a p IH]; intros [|b q]; cbn; try reflexivity.
  rewrite IH, (proj1 compareIdentifier_lawful a b).
  destruct (Semver.compareIdentifier a b); reflexivity.
Qed.

Lemma compareIdentifiers_trans p q r :
  Semver.compareIdentifiers p q <> Gt -> Semver.compareIdentifiers q r <> Gt ->
  Semver.compareIdentifiers p r <> Gt.
Proof.
  revert q r. induction p as [|a p IH]; intros [|b q] [|c r]; cbn; try congruence.
  destruct (Semver.compareIdentifier a b) eqn:Cab; cbn [Semver.thenCompare].
  - rewrite (lawful_eq_compat _ compareIdentifier_lawful a b c Cab).
    destruct (Semver.compareIdentifier b c); cbn [Semver.thenCompare]; try congruence.
    apply IH.
  - intros _ H.
    assert (Semver.compareIdentifier b c <> Gt)
      by (destruct (Semver.compareIdentifier b c); cbn in H; congruence).
    rewrite (lawful_lt_le _ compareIdentifier_lawful a b c Cab); [discriminate|assumption].
  - congruence.
Qed.

Lemma comparePrerelease_lawful : lawful Semver.comparePrerelease.
Proof.
  split.
  - intros [|a p] [|b q]; try reflexivity.
    apply compareIdentifiers_antisym.
  - intros [|a p] [|b q] [|c r]; cbn [Semver.comparePrerelease]; try congruence.
    apply compareIdentifiers_trans.
Qed.

Lemma compare_lawful : lawful Semver.compare.
Proof.
  unfold Semver.compare.
  apply (lawful_thenCompare
           (fun a b => N.compare (Semver.major a) (Semver.major b))
           (fun a b =>
              Semver.thenCompare (N.compare (Semver.minor a) (Semver.minor b))
                (Semver.thenCompare (N.compare (Semver.patch a) (Semver.patch b))
                   (Semver.comparePrerelease (Semver.prerelease a) (Semver.prerelease b)))));
    [apply (lawful_key _ lawful_N)|].
  apply (lawful_thenCompare
           (fun a b => N.compare (Semver.minor a) (Semver.minor b))
           (fun a b =>
              Semver.thenCompare (N.compare (Semver.patch a) (Semver.patch b))
                (Semver.comparePrerelease (Semver.prerelease a) (Semver.prerelease b))));
    [apply (lawful_key _ lawful_N)|].
  apply (lawful_thenCompare
           (fun a b => N.compare (Semver.patch a) (Semver.patch b))
           (fun a b =>
              Semver.comparePrerelease (Semver.prerelease a) (Semver.prerelease b)));
    [apply (lawful_key _ lawful_N)|].
  apply (lawful_key _ comparePrerelease_lawful).
Qed.

Lemma valid_parse s : Semver.valid s <> None -> exists x, Semver.parse s = Some x.
Proof.
  unfold Semver.valid. destruct (Semver.parse s) as [x|]; [eauto|congruence].
Qed.

Lemma referenceSemverLaws : ConsistentSemver referenceRuntime.
Proof.
  constructor; cbn [semverValid semverRcompare referenceRuntime].
  - intros a b Va Vb.
    destruct (valid_parse a Va) as (x & Ex), (valid_parse b Vb) as (y & Ey).
    unfold Semver.rcompare. rewrite Ex, Ey, !comparisonZ_sgn.
    rewrite (proj1 compare_lawful y x). apply comparisonZ_opp.
  - intros a b c Va Vb Vc.
    destruct (valid_parse a Va) as (x & Ex), (valid_parse b Vb) as (y & Ey),
             (valid_parse c Vc) as (z & Ez).
    unfold Semver.rcompare. rewrite Ex, Ey, Ez, !comparisonZ_le.
    intros Hyx Hzy. exact (proj2 compare_lawful z y x Hzy Hyx).
Qed.

Lemma referenceCollationLaws : ConsistentCollation referenceRuntime.
Proof.
  constructor; cbn [localeCompare referenceRuntime].
  - apply defaultCompare_antisym.
  - apply defaultCompare_trans.
Qed.

(** ** The pipeline on concrete inputs *)

(** C1, as stated, fails: in the tag "my-ext@v1.0.0@v2" everything after the
    first "@v" is "1.0.0@v2", while the version extracted and stored is
    "1.0.0". *)
Lemma version_is_not_all_after_first_marker :
  startsWith "my-ext@v1.0.0@v2" ("my-ext" ++ "@v") = true
  /\ afterFirst "@v" "my-ext@v1.0.0@v2" = Some "1.0.0@v2"
  /\ extractVersion "my-ext@v1.0.0@v2" = Some "1.0.0"
  /\ parseExtensionRelease (rt := referenceRuntime)
       (sampleRelease "my-ext@v1.0.0@v2" EmptyString) "my-ext" sampleManifest
     = Some (sampleVersion "1.0.0")
  /\ Some (ExtensionVersion.version (sampleVersion "1.0.0"))
     <> afterFirst "@v" "my-ext@v1.0.0@v2".
Proof. repeat split. discriminate. Qed.

Lemma extracted_version_witness :
  startsWith "my-ext@v1.0.0@v2" ("my-ext" ++ "@v") = true
  /\ exists rest,
       afterFirst "@v" "my-ext@v1.0.0@v2" = Some rest
       /\ extractVersion "my-ext@v1.0.0@v2" = Some (upToFirst "@v" rest)
       /\ (forall v,
             parseExtensionRelease (rt := referenceRuntime)
               (sampleRelease "my-ext@v1.0.0@v2" EmptyString) "my-ext" sampleManifest
             = Some v ->
             ExtensionVersion.version v = upToFirst "@v" rest)
       /\ (afterFirst "@v" rest = None ->
           extractVersion "my-ext@v1.0.0@v2" = afterFirst "@v" "my-ext@v1.0.0@v2").
Proof.
  split; [reflexivity|].
  apply (extracted_version_ends_at_next_marker (rt := referenceRuntime)
           (sampleRelease "my-ext@v1.0.0@v2" EmptyString) "my-ext" sampleManifest).
  reflexivity.
Defined.

Lemma minimumConnectVersion_witness :
  parseExtensionRelease (rt := referenceRuntime)
    (sampleRelease "my-ext@v1.0.0" metadataBody) "my-ext" sampleManifest
  = Some metadataVersion
  /\ JSON_parse (Runtime := referenceRuntime) metadataBody = Some metadataValue
  /\ ExtensionVersion.minimumConnectVersion metadataVersion = VStr "2025.01.0".
Proof.
  split; [vm_compute; reflexivity|]. split; [vm_compute; reflexivity|].
  pose proof (minimumConnectVersion_body_then_manifest (rt := referenceRuntime)
                (sampleRelease "my-ext@v1.0.0" metadataBody) "my-ext" sampleManifest
                metadataVersion) as H.
  cbv zeta in H. destruct H as [_ H]; [vm_compute; reflexivity|].
  destruct (H metadataValue) as [Hs _]; [vm_compute; reflexivity|].
  apply (Hs "2025.01.0"); [reflexivity | discriminate].
Defined.

Lemma required_fields_witness :
  parseExtensionRelease (rt := referenceRuntime)
    (sampleRelease "my-ext@v1.0.0" metadataBody) "my-ext" sampleManifest
  = Some metadataVersion
  /\ ExtensionVersion.requiredFeatures metadataVersion = Some (VArr [VStr "feature-a"])
  /\ ExtensionVersion.requiredEnvironment metadataVersion
     = Some (VObj [("python", VObj [("requires", VStr ">=3.10")])]).
Proof.
  split; [vm_compute; reflexivity|].
  pose proof (required_fields_body_then_manifest (rt := referenceRuntime)
                (sampleRelease "my-ext@v1.0.0" metadataBody) "my-ext" sampleManifest
                metadataVersion) as H.
  cbv zeta in H. destruct H as [[Hf _] [He _]]; [vm_compute; reflexivity|].
  split.
  - apply (Hf [VStr "feature-a"]); [vm_compute; reflexivity | discriminate].
  - apply (He [("python", VObj [("requires", VStr ">=3.10")])]). vm_compute. reflexivity.
Defined.

Lemma valid_json_without_metadata_witness :
  JSON_parse (Runtime := referenceRuntime) "null" = Some VNull
  /\ carriesMetadata VNull = false
  /\ JSON_parse (Runtime := referenceRuntime) "just some release notes" = None
  /\ parseExtensionRelease (rt := referenceRuntime)
       (sampleRelease "my-ext@v1.0.0" "null") "my-ext" sampleManifest
     = parseExtensionRelease (rt := referenceRuntime)
         (withBody (sampleRelease "my-ext@v1.0.0" "null") "just some release notes")
         "my-ext" sampleManifest.
Proof.
  split; [vm_compute; reflexivity|]. split; [reflexivity|].
  split; [vm_compute; reflexivity|].
  apply (valid_json_without_metadata_as_invalid_json (rt := referenceRuntime)
           (sampleRelease "my-ext@v1.0.0" "null") "my-ext" sampleManifest VNull
           "just some release notes");
    vm_compute; reflexivity.
Defined.

Lemma versions_sorted_witness :
  In (sampleExtension "my-ext" [sampleVersion "1.0.0"; sampleVersion "0.9.0"]
        (sampleVersion "1.0.0"))
     (buildExtensions (rt := referenceRuntime) [("my-ext", sampleManifest)] sampleReleases)
  /\ StronglySorted (notAfter (byVersion (rt := referenceRuntime)))
       [sampleVersion "1.0.0"; sampleVersion "0.9.0"]
  /\ Permutation [sampleVersion "1.0.0"; sampleVersion "0.9.0"]
       (parsedReleases (rt := referenceRuntime) sampleManifest sampleReleases)
  /\ parsedReleases (rt := referenceRuntime) sampleManifest sampleReleases
     = [sampleVersion "0.9.0"; sampleVersion "1.0.0"]
  /\ ExtensionVersion.version (sampleVersion "1.0.0") = "1.0.0".
Proof.
  assert (Hin : In (sampleExtension "my-ext" [sampleVersion "1.0.0"; sampleVersion "0.9.0"]
                      (sampleVersion "1.0.0"))
                   (buildExtensions (rt := referenceRuntime)
                      [("my-ext", sampleManifest)] sampleReleases))
    by (vm_compute; left; reflexivity).
  split; [exact Hin|].
  destruct (versions_sorted_latest_first (rt := referenceRuntime)
              (semverLaws := referenceSemverLaws)
              [("my-ext", sampleManifest)] sampleReleases _ Hin)
    as (key & manifest & Hm & Hperm & Hsorted & _ & _ & Hlatest).
  split; [exact Hsorted|].
  destruct Hm as [Hm|[]]. injection Hm as _ <-.
  split; [exact Hperm|]. split; [vm_compute; reflexivity|].
  apply Hlatest; [reflexivity | vm_compute; apply perm_swap].
Defined.

Lemma extensions_sorted_witness :
  StronglySorted (notAfter (byName (rt := referenceRuntime)))
    (buildExtensions (rt := referenceRuntime) zebraAlphaManifests zebraAlphaReleases)
  /\ map Extension.name
       (buildExtensions (rt := referenceRuntime) zebraAlphaManifests zebraAlphaReleases)
     = ["alpha"; "zebra"].
Proof.
  destruct (extensions_sorted_by_name (rt := referenceRuntime)
              (collationLaws := referenceCollationLaws)
              zebraAlphaManifests zebraAlphaReleases) as [Hsorted Hnames].
  split; [exact Hsorted|].
  apply (Hnames "zebra" (makeManifest "zebra" "1.0.0" None None (Some []) None)
                "alpha" (makeManifest "alpha" "1.0.0" None None (Some []) None));
    try reflexivity; discriminate.
Defined.

(** ** The cases of generate-gallery-lib.test.ts, on the reference runtime *)

Section RepositoryCases.
Existing Instance referenceRuntime.

Example parses_a_valid_release :
  parseExtensionRelease (sampleRelease "my-ext@v1.0.0" EmptyString) "my-ext" sampleManifest
  = Some (sampleVersion "1.0.0").
Proof. vm_compute. reflexivity. Qed.

Example null_when_tag_does_not_match :
  parseExtensionRelease (sampleRelease "other-ext@v1.0.0" EmptyString) "my-ext" sampleManifest
  = None.
Proof. vm_compute. reflexivity. Qed.

Example null_when_asset_is_missing :
  parseExtensionRelease
    {| GitHubRelease.tagName := "my-ext@v1.0.0";
       GitHubRelease.publishedAt := "2024-06-01T00:00:00Z";
       GitHubRelease.assets := [];
       GitHubRelease.body := EmptyString |} "my-ext" sampleManifest
  = None.
Proof. vm_compute. reflexivity. Qed.

Example null_for_invalid_semver :
  parseExtensionRelease (sampleRelease "my-ext@vnot-a-version" EmptyString) "my-ext"
    sampleManifest
  = None.
Proof. vm_compute. reflexivity. Qed.

Example uses_metadata_from_release_body :
  parseExtensionRelease (sampleRelease "my-ext@v1.0.0" metadataBody) "my-ext" sampleManifest
  = Some metadataVersion.
Proof. vm_compute. reflexivity. Qed.

Example falls_back_to_manifest_when_body_is_not_json :
  parseExtensionRelease (sampleRelease "my-ext@v1.0.0" "just some release notes") "my-ext"
    (makeManifest "my-ext" "1.0.0" (Some ["manifest-feature"]) None (Some [])
       (Some pythonEnvironment))
  = Some {| ExtensionVersion.version := "1.0.0";
            ExtensionVersion.released := "2024-06-01T00:00:00Z";
            ExtensionVersion.url := "https://example.com/my-ext.tar.gz";
            ExtensionVersion.minimumConnectVersion := VStr "2024.01.0";
            ExtensionVersion.requiredFeatures := Some (VArr [VStr "manifest-feature"]);
            ExtensionVersion.requiredEnvironment :=
              Some (VObj [("python", VObj [("requires", VStr ">=3.9")])]) |}.
Proof. vm_compute. reflexivity. Qed.

Example builds_extensions_from_manifests_and_releases :
  buildExtensions [("my-ext", sampleManifest)]
    [sampleRelease "my-ext@v1.0.0" EmptyString; sampleRelease "my-ext@v0.9.0" EmptyString]
  = [sampleExtension "my-ext" [sampleVersion "1.0.0"; sampleVersion "0.9.0"]
       (sampleVersion "1.0.0")].
Proof. vm_compute. reflexivity. Qed.

Example skips_extensions_with_version_0_0_0 :
  buildExtensions [("unreleased", makeManifest "unreleased" "0.0.0" None None (Some []) None)]
    [makeRelease "unreleased" "unreleased@v0.0.1" EmptyString]
  = [].
Proof. vm_compute. reflexivity. Qed.

Example skips_extensions_with_no_matching_releases :
  buildExtensions [("no-releases", makeManifest "no-releases" "1.0.0" None None (Some []) None)]
    []
  = [].
Proof. vm_compute. reflexivity. Qed.

Example sorts_extensions_by_name :
  map Extension.name (buildExtensions zebraAlphaManifests zebraAlphaReleases)
  = ["alpha"; "zebra"].
Proof. vm_compute. reflexivity. Qed.

Example category_present_only_when_declared :
  map Extension.category
    (buildExtensions
       [("cat-ext", makeManifest "cat-ext" "1.0.0" None (Some "data-science") (Some []) None);
        ("no-cat", makeManifest "no-cat" "1.0.0" None None (Some []) None)]
       [makeRelease "cat-ext" "cat-ext@v1.0.0" EmptyString;
        makeRelease "no-cat" "no-cat@v1.0.0" EmptyString])
  = [Some "data-science"; None].
Proof. vm_compute. reflexivity. Qed.

Example collects_unique_tags_and_features :
  collectTagsAndFeatures
    [("a", makeManifest "my-ext" "1.0.0" (Some ["gpu"]) None (Some ["python"; "data"]) None);
     ("b", makeManifest "my-ext" "1.0.0" (Some ["gpu"; "cuda"]) None (Some ["python"; "ml"])
             None)]
  = {| TagsAndFeatures.allTags := ["python"; "data"; "ml"];
       TagsAndFeatures.allFeatures := ["gpu"; "cuda"] |}.
Proof. vm_compute. reflexivity. Qed.

Example handles_manifests_with_no_tags_or_features :
  collectTagsAndFeatures [("a", makeManifest "my-ext" "1.0.0" None None None None)]
  = {| TagsAndFeatures.allTags := []; TagsAndFeatures.allFeatures := [] |}.
Proof. vm_compute. reflexivity. Qed.

Example assembles_the_output :
  buildOutput [] {| GalleryConfig.categories :=
                      [{| Category.id := "data-science";
                          Category.title := "Data Science";
                          Category.description := "DS extensions" |}] |}
    ["z-tag"; "a-tag"] ["z-feat"; "a-feat"]
  = {| GalleryOutput.categories :=
         [{| Category.id := "data-science";
             Category.title := "Data Science";
             Category.description := "DS extensions" |}];
       GalleryOutput.tags := ["a-tag"; "z-tag"];
       GalleryOutput.requiredFeatures := ["a-feat"; "z-feat"];
       GalleryOutput.extensions := [] |}.
Proof. vm_compute. reflexivity. Qed.

Example transforms_api_releases :
  transformGitHubApiReleases
    [{| GitHubApiRelease.tag_name := "ext@v2.0.0";
        GitHubApiRelease.published_at := "2025-01-01T00:00:00Z";
        GitHubApiRelease.assets :=
          [{| ApiAsset.name := "ext.tar.gz";
              ApiAsset.browser_download_url := "https://github.com/download/ext.tar.gz" |};
           {| ApiAsset.name := "ext.zip";
              ApiAsset.browser_download_url := "https://github.com/download/ext.zip" |}];
        GitHubApiRelease.body := "v2" |}]
  = [{| GitHubRelease.tagName := "ext@v2.0.0";
        GitHubRelease.publishedAt := "2025-01-01T00:00:00Z";
        GitHubRelease.assets :=
          [{| GitHubReleaseAsset.name := "ext.tar.gz";
              GitHubReleaseAsset.url := "https://github.com/download/ext.tar.gz" |};
           {| GitHubReleaseAsset.name := "ext.zip";
              GitHubReleaseAsset.url := "https://github.com/download/ext.zip" |}];
        GitHubRelease.body := "v2" |}].
Proof. reflexivity. Qed.

(** Precedence in the reference semver: major, then minor, then patch, then
    pre-release; a negative number puts the first argument first. *)
Example reference_precedence :
  map (fun p => Semver.rcompare (fst p) (snd p))
    [("2.0.0", "1.9.9"); ("1.2.0", "1.1.9"); ("1.1.2", "1.1.1");
     ("1.0.0", "1.0.0-rc.1"); ("1.0.0-rc.2", "1.0.0-rc.1");
     ("1.0.0-rc.1", "1.0.0-beta"); ("1.0.0-alpha.1", "1.0.0-alpha");
     ("1.0.0+build.1", "1.0.0+build.2"); ("0.9.0", "1.0.0")]
  = [-1; -1; -1; -1; -1; -1; -1; 0; 1]%Z.
Proof. vm_compute. reflexivity. Qed.

End RepositoryCases.

(** * Further properties of the source *)

(** ** More on strings *)

Lemma string_app_assoc (a b c : string) : (a ++ b) ++ c = a ++ b ++ c.
Proof. induction a as [|x a IH]; cbn; [reflexivity | rewrite IH; reflexivity]. Qed.

Lemma string_app_length (a b : string) :
  String.length (a ++ b) = String.length a + String.length b.
Proof. induction a as [|x a IH]; cbn; [reflexivity | rewrite IH; reflexivity]. Qed.

Lemma afterFirst_None_cut (sep s : string) :
  afterFirst sep s = None <-> cut sep s = None.
Proof.
  unfold afterFirst. destruct (cut sep s) as [[b a]|]; cbn; split; congruence.
Qed.

(** A name without the marker is followed by the first marker of the tag. *)
Lemma cut_marker_after_name (name rest : string) :
  afterFirst "@v" name = None ->
  cut "@v" (name ++ "@v" ++ rest) = Some (name, rest).
Proof.
  rewrite afterFirst_None_cut. induction name as [|c name IH]; intros H.
  - change (EmptyString ++ "@v" ++ rest) with ("@v" ++ rest).
    rewrite cut_equation, prefix_append. reflexivity.
  - rewrite cut_equation in H.
    destruct (String.prefix "@v" (String c name)) eqn:P; [discriminate|].
    destruct (cut "@v" name) as [[b a]|] eqn:C; [discriminate|].
    change (String c name ++ "@v" ++ rest) with (String c (name ++ "@v" ++ rest)).
    rewrite cut_equation, (IH eq_refl).
    replace (String.prefix "@v" (String c (name ++ "@v" ++ rest))) with false;
      [reflexivity|].
    symmetry. cbn [String.prefix] in *.
    destruct (ascii_dec "@" c) as [E|]; [|reflexivity].
    destruct name as [|d name]; cbn [append String.prefix] in P |- *.
    + destruct (ascii_dec "v" "@"); [discriminate|reflexivity].
    + destruct (ascii_dec "v" d); [|reflexivity]. destruct name; discriminate P.
Qed.

(** The text up to the first separator holds no separator. *)
Lemma upToFirst_free (sep s : string) :
  sep <> EmptyString -> afterFirst sep (upToFirst sep s) = None.
Proof.
  intros Hsep. apply afterFirst_None_cut. unfold upToFirst.
  destruct (cut sep s) as [[x y]|] eqn:C; [|exact C].
  destruct (cut sep x) as [[b a]|] eqn:Cx; [|reflexivity]. exfalso.
  pose proof (cut_Some_append _ _ _ _ Cx) as Ex.
  pose proof (cut_Some_append _ _ _ _ C) as Es.
  assert (Es' : s = b ++ sep ++ (a ++ sep ++ y)).
  { rewrite Es, Ex at 1. rewrite !string_app_assoc. reflexivity. }
  pose proof (cut_Some_first _ _ _ _ C _ _ Es') as L.
  rewrite Ex, !string_app_length in L.
  destruct sep; [congruence | cbn in L; lia].
Qed.

Lemma find_first {A : Type} (f : A -> bool) (l : list A) (x : A) :
  find f l = Some x ->
  exists before after,
    l = (before ++ x :: after)%list /\ f x = true
    /\ forall y, In y before -> f y = false.
Proof.
  induction l as [|y l IH]; cbn [find]; [discriminate|].
  destruct (f y) eqn:F.
  - intros [= <-]. exists [], l. repeat split; [exact F | intros z []].
  - intros H. destruct (IH H) as (before & after & -> & Fx & Hb).
    exists (y :: before), after. repeat split; [exact Fx|].
    intros z [<-|Hz]; [exact F | apply Hb, Hz].
Qed.

(** ** parseExtensionRelease, further *)

Section ParseExtensionReleaseFurther.
Context {rt : Runtime}.

(** X1: a non-null result carries the release's [publishedAt] as [released]
    and, as [url], the url of the first asset named
    ["<extensionName>.tar.gz"]: assets of that name further down the list are
    not looked at. *)
Theorem result_url_of_first_matching_asset release extensionName manifest v :
  parseExtensionRelease release extensionName manifest = Some v ->
  ExtensionVersion.released v = GitHubRelease.publishedAt release
  /\ exists before asset after,
       GitHubRelease.assets release = (before ++ asset :: after)%list
       /\ GitHubReleaseAsset.name asset = extensionName ++ ".tar.gz"
       /\ (forall a, In a before ->
             GitHubReleaseAsset.name a <> extensionName ++ ".tar.gz")
       /\ ExtensionVersion.url v = GitHubReleaseAsset.url asset.
Proof.
  intros Hv.
  destruct (parseExtensionRelease_Some _ _ _ _ Hv) as (asset & ver & _ & F & _ & _ & ->).
  split; [reflexivity|]. unfold findAsset in F.
  destruct (find_first _ _ _ F) as (before & after & E & N & Hb).
  exists before, asset, after. repeat split.
  - exact E.
  - apply String.eqb_eq, N.
  - intros a Ha. apply String.eqb_neq, Hb, Ha.
Qed.

(** X2: the [version] of a non-null result is accepted by [semverValid] and
    never holds the marker ["@v"]. *)
Theorem result_version_valid_without_marker release extensionName manifest v :
  parseExtensionRelease release extensionName manifest = Some v ->
  semverValid (ExtensionVersion.version v) <> None
  /\ afterFirst "@v" (ExtensionVersion.version v) = None
  /\ forall b a, ExtensionVersion.version v <> b ++ "@v" ++ a.
Proof.
  intros Hv.
  destruct (parseExtensionRelease_Some _ _ _ _ Hv) as (asset & ver & P & _ & E & V & ->).
  cbn [ExtensionVersion.version]. split; [exact V|].
  destruct (startsWith_cut _ _ _ P) as (b0 & rest & C).
  unfold extractVersion in E. rewrite (extractVersion_cut _ _ _ C) in E.
  injection E as <-.
  assert (F : afterFirst "@v" (upToFirst "@v" rest) = None)
    by (apply upToFirst_free; discriminate).
  split; [exact F | apply afterFirst_None, F].
Qed.

Lemma extractVersion_of_tag (name version : string) :
  afterFirst "@v" name = None -> afterFirst "@v" version = None ->
  extractVersion (name ++ "@v" ++ version) = Some version.
Proof.
  intros Hn Hv. unfold extractVersion.
  rewrite (extractVersion_cut _ _ _ (cut_marker_after_name name version Hn)).
  unfold upToFirst. apply afterFirst_None_cut in Hv. rewrite Hv. reflexivity.
Qed.

(** X3: when neither the extension name nor the version holds ["@v"], a
    release tagged ["<name>@v<version>"] that has the asset and whose version
    [semverValid] accepts is parsed into a record with exactly that
    version. *)
Theorem tag_of_name_and_version_parses_back
  release extensionName manifest version asset :
  afterFirst "@v" extensionName = None ->
  afterFirst "@v" version = None ->
  GitHubRelease.tagName release = extensionName ++ "@v" ++ version ->
  findAsset release extensionName = Some asset ->
  semverValid version <> None ->
  exists v,
    parseExtensionRelease release extensionName manifest = Some v
    /\ ExtensionVersion.version v = version
    /\ ExtensionVersion.url v = GitHubReleaseAsset.url asset
    /\ ExtensionVersion.released v = GitHubRelease.publishedAt release.
Proof.
  intros Hn Hv T F V. unfold parseExtensionRelease. rewrite T.
  unfold startsWith. rewrite <- string_app_assoc, prefix_append. cbn [negb].
  rewrite string_app_assoc, (extractVersion_of_tag _ _ Hn Hv), F.
  destruct (semverValid version); [|congruence].
  eexists. split; [reflexivity|]. cbn. auto.
Qed.

Lemma prefix_names_equal (tagName n1 n2 : string) :
  afterFirst "@v" n1 = None -> afterFirst "@v" n2 = None ->
  startsWith tagName (n1 ++ "@v") = true ->
  startsWith tagName (n2 ++ "@v") = true ->
  n1 = n2.
Proof.
  intros H1 H2 P1 P2. unfold startsWith in *.
  apply prefix_true in P1, P2. rewrite string_app_assoc in P1, P2.
  pose proof (cut_marker_after_name n1
                (drop (String.length (n1 ++ "@v")) tagName) H1) as C1.
  pose proof (cut_marker_after_name n2
                (drop (String.length (n2 ++ "@v")) tagName) H2) as C2.
  rewrite <- P1 in C1. rewrite <- P2 in C2. congruence.
Qed.

(** X4: a release yields a version for at most one extension name, among
    names that do not hold ["@v"] themselves. *)
Theorem release_belongs_to_one_name release n1 m1 v1 n2 m2 v2 :
  afterFirst "@v" n1 = None -> afterFirst "@v" n2 = None ->
  parseExtensionRelease release n1 m1 = Some v1 ->
  parseExtensionRelease release n2 m2 = Some v2 ->
  n1 = n2.
Proof.
  intros H1 H2 P1 P2.
  destruct (parseExtensionRelease_Some _ _ _ _ P1) as (_ & _ & S1 & _).
  destruct (parseExtensionRelease_Some _ _ _ _ P2) as (_ & _ & S2 & _).
  exact (prefix_names_equal _ _ _ H1 H2 S1 S2).
Qed.

End ParseExtensionReleaseFurther.

(** ** buildExtensions, further *)

Lemma keep_app {A : Type} (l1 l2 : list (option A)) :
  keep (l1 ++ l2)%list = (keep l1 ++ keep l2)%list.
Proof.
  induction l1 as [|[x|] l1 IH]; cbn [keep app]; rewrite ?IH; reflexivity.
Qed.

Lemma keep_length {A : Type} (l : list (option A)) :
  List.length (keep l) <= List.length l.
Proof. induction l as [|[x|] l IH]; cbn [keep List.length]; lia. Qed.

Lemma keep_perm {A : Type} (l l' : list (option A)) :
  Permutation l l' -> Permutation (keep l) (keep l').
Proof.
  induction 1 as [|[x|] l l' _ IH|[x|] [y|] l|l l' l'' _ IH1 _ IH2]; cbn [keep];
    try reflexivity; auto.
  - apply perm_swap.
  - etransitivity; eassumption.
Qed.

Lemma sortBy_length {A : Type} (cmp : A -> A -> Z) (l : list A) :
  List.length (sortBy cmp l) = List.length l.
Proof. apply Permutation_length, sortBy_perm. Qed.

Lemma sortBy_nil_iff {A : Type} (cmp : A -> A -> Z) (l : list A) :
  sortBy cmp l = [] <-> l = [].
Proof.
  split; [|intros ->; reflexivity].
  intros H. pose proof (sortBy_length cmp l) as L. rewrite H in L.
  destruct l; [reflexivity | discriminate].
Qed.

(** Lists in order that are rearrangements of each other are equal, when
    elements that rank together are equal. *)
Lemma sorted_perm_unique {A : Type} (cmp : A -> A -> Z) (l1 l2 : list A) :
  (forall a b, Z.sgn (cmp b a) = (- Z.sgn (cmp a b))%Z) ->
  (forall a b, In a l1 -> In b l1 -> cmp a b = 0%Z -> a = b) ->
  StronglySorted (notAfter cmp) l1 -> StronglySorted (notAfter cmp) l2 ->
  Permutation l1 l2 -> l1 = l2.
Proof.
  intros anti. revert l2. induction l1 as [|x l1 IH]; intros l2 ties S1 S2 Hp.
  - apply Permutation_nil in Hp. congruence.
  - destruct l2 as [|y l2]; [apply Permutation_sym, Permutation_nil in Hp; discriminate|].
    assert (Hy : In y (x :: l1))
      by (apply (Permutation_in _ (Permutation_sym Hp)); left; reflexivity).
    assert (Hx : In x (y :: l2)) by (apply (Permutation_in _ Hp); left; reflexivity).
    inversion S1 as [|? ? S1' F1]; subst. inversion S2 as [|? ? S2' F2]; subst.
    rewrite Forall_forall in F1, F2.
    assert (E : x = y).
    { destruct Hy as [Hy|Hy]; [exact Hy|]. destruct Hx as [Hx|Hx]; [congruence|].
      apply ties; [left; reflexivity | right; exact Hy |].
      pose proof (F1 y Hy) as L1. pose proof (F2 x Hx) as L2.
      pose proof (anti x y). unfold notAfter in *. lia. }
    subst y. f_equal. apply IH; try assumption.
    + intros a b Ha Hb. apply ties; right; assumption.
    + apply (Permutation_cons_inv Hp).
Qed.

Section BuildExtensionsFurther.
Context {rt : Runtime}.

Lemma buildExtension_None manifest releases :
  buildExtension manifest releases = None <->
  ExtensionInfo.version (ExtensionManifest.extension manifest) = "0.0.0"
  \/ parsedReleases manifest releases = [].
Proof.
  unfold buildExtension.
  destruct (String.eqb_spec
              (ExtensionInfo.version (ExtensionManifest.extension manifest)) "0.0.0")
    as [E|N]; [tauto|].
  destruct (sortBy byVersion (parsedReleases manifest releases)) as [|latest rest] eqn:S.
  - apply sortBy_nil_iff in S. tauto.
  - split; [discriminate|]. intros [E|E]; [contradiction|].
    rewrite E in S. discriminate.
Qed.

Lemma buildExtension_fields manifest releases e :
  buildExtension manifest releases = Some e ->
  let info := ExtensionManifest.extension manifest in
  Extension.name e = ExtensionInfo.name info
  /\ Extension.title e = ExtensionInfo.title info
  /\ Extension.description e = ExtensionInfo.description info
  /\ Extension.homepage e = ExtensionInfo.homepage info
  /\ Extension.tags e
     = match ExtensionInfo.tags info with Some ts => ts | None => [] end
  /\ Extension.category e
     = match ExtensionInfo.category info with
       | Some c => if c =? EmptyString then None else Some c
       | None => None
       end.
Proof.
  unfold buildExtension.
  destruct (_ =? "0.0.0"); [discriminate|].
  destruct (sortBy byVersion (parsedReleases manifest releases)); [discriminate|].
  intros [= <-]. cbn. auto 10.
Qed.

Lemma parsedReleases_app manifest rs1 rs2 :
  parsedReleases manifest (rs1 ++ rs2)%list
  = (parsedReleases manifest rs1 ++ parsedReleases manifest rs2)%list.
Proof. unfold parsedReleases. rewrite map_app, keep_app. reflexivity. Qed.

Lemma parsedReleases_length manifest releases :
  List.length (parsedReleases manifest releases) <= List.length releases.
Proof.
  unfold parsedReleases. etransitivity; [apply keep_length|].
  rewrite length_map. reflexivity.
Qed.

(** X5: every emitted extension takes its name, title, description and
    homepage from a manifest of the map; its tags are the manifest's, the
    empty list when the manifest has none; it has a category only when the
    manifest declares a non-empty one, so its category is never the empty
    string. *)
Theorem emitted_fields_from_manifest manifests releases e :
  In e (buildExtensions manifests releases) ->
  exists key manifest,
    In (key, manifest) manifests
    /\ Extension.name e = ExtensionInfo.name (ExtensionManifest.extension manifest)
    /\ Extension.title e = ExtensionInfo.title (ExtensionManifest.extension manifest)
    /\ Extension.description e
       = ExtensionInfo.description (ExtensionManifest.extension manifest)
    /\ Extension.homepage e
       = ExtensionInfo.homepage (ExtensionManifest.extension manifest)
    /\ (ExtensionInfo.tags (ExtensionManifest.extension manifest) = None ->
        Extension.tags e = [])
    /\ (forall ts, ExtensionInfo.tags (ExtensionManifest.extension manifest) = Some ts ->
        Extension.tags e = ts)
    /\ (forall c, Extension.category e = Some c <->
          ExtensionInfo.category (ExtensionManifest.extension manifest) = Some c
          /\ c <> EmptyString)
    /\ Extension.category e <> Some EmptyString.
Proof.
  intros He. apply In_buildExtensions in He. destruct He as (key & manifest & Hin & Hb).
  exists key, manifest. split; [exact Hin|].
  destruct (buildExtension_fields _ _ _ Hb) as (N & T & D & H & G & C).
  cbv zeta in *. rewrite N, T, D, H, G, C.
  repeat split; try (intros ->; reflexivity).
  - intros ts ->. reflexivity.
  - destruct (ExtensionInfo.category _) as [c'|]; [|discriminate].
    destruct (String.eqb_spec c' EmptyString); congruence.
  - destruct (ExtensionInfo.category _) as [c'|]; [|discriminate].
    destruct (String.eqb_spec c' EmptyString); congruence.
  - intros [-> Hc]. destruct (String.eqb_spec c EmptyString); congruence.
  - destruct (ExtensionInfo.category _) as [c'|]; [|discriminate].
    destruct (String.eqb_spec c' EmptyString); congruence.
Qed.

(** X6: every version listed for an emitted extension was parsed from a
    release of the input whose tag starts with ["<name>@v"], with [name] the
    extension's name: it carries that release's [publishedAt] and the url of
    one of its assets named ["<name>.tar.gz"]. *)
Theorem emitted_versions_come_from_releases manifests releases e v :
  In e (buildExtensions manifests releases) ->
  In v (Extension.versions e) ->
  exists release asset,
    In release releases
    /\ startsWith (GitHubRelease.tagName release) (Extension.name e ++ "@v") = true
    /\ ExtensionVersion.released v = GitHubRelease.publishedAt release
    /\ In asset (GitHubRelease.assets release)
    /\ GitHubReleaseAsset.name asset = Extension.name e ++ ".tar.gz"
    /\ ExtensionVersion.url v = GitHubReleaseAsset.url asset.
Proof.
  intros He Hv. apply In_buildExtensions in He.
  destruct He as (key & manifest & _ & Hb).
  destruct (buildExtension_Some _ _ _ Hb) as (_ & N & S & _).
  rewrite S in Hv. apply (Permutation_in _ (sortBy_perm _ _)) in Hv.
  unfold parsedReleases in Hv. rewrite In_keep, in_map_iff in Hv.
  destruct Hv as (release & Hp & Hr). rewrite <- N in Hp.
  destruct (parseExtensionRelease_Some _ _ _ _ Hp) as (asset & ver & P & F & _ & _ & ->).
  exists release, asset. unfold findAsset in F. apply find_some in F.
  destruct F as [Ha En]. apply String.eqb_eq in En. cbn. auto 10.
Qed.

(** X7: there is at most one emitted extension per manifest, each lists at
    least one and at most as many versions as there are releases, and
    without releases nothing is emitted. *)
Theorem buildExtensions_sizes manifests releases :
  List.length (buildExtensions manifests releases) <= List.length manifests
  /\ (forall e, In e (buildExtensions manifests releases) ->
        1 <= List.length (Extension.versions e) <= List.length releases)
  /\ buildExtensions manifests [] = [].
Proof.
  split; [|split].
  - unfold buildExtensions. rewrite sortBy_length.
    etransitivity; [apply keep_length|]. rewrite length_map. reflexivity.
  - intros e He. apply In_buildExtensions in He.
    destruct He as (key & manifest & _ & Hb).
    destruct (buildExtension_Some _ _ _ Hb) as (_ & _ & S & Hne & _).
    split.
    + destruct (Extension.versions e); [congruence | cbn; lia].
    + rewrite S, sortBy_length. apply parsedReleases_length.
  - unfold buildExtensions.
    replace (keep (map (fun entry => buildExtension (snd entry) []) manifests))
      with (@nil Extension.t); [reflexivity|].
    induction manifests as [|entry manifests IH]; [reflexivity|].
    cbn [map keep].
    rewrite (proj2 (buildExtension_None (snd entry) []) (or_intror eq_refl)).
    exact IH.
Qed.

(** X8: a release from which no manifest of the map gets a version can be
    taken out of the list without changing the result. *)
Theorem unparsed_release_can_be_dropped manifests before release after :
  (forall key manifest, In (key, manifest) manifests ->
     parseExtensionRelease release
       (ExtensionInfo.name (ExtensionManifest.extension manifest)) manifest = None) ->
  buildExtensions manifests (before ++ release :: after)%list
  = buildExtensions manifests (before ++ after)%list.
Proof.
  intros H. unfold buildExtensions. f_equal. f_equal.
  apply map_ext_in. intros [key manifest] Hin. cbn [snd].
  unfold buildExtension. f_equal.
  assert (E : parsedReleases manifest (before ++ release :: after)%list
              = parsedReleases manifest (before ++ after)%list).
  { rewrite !parsedReleases_app. f_equal.
    unfold parsedReleases at 1. cbn [map keep]. rewrite (H key manifest Hin).
    reflexivity. }
  rewrite E. reflexivity.
Qed.

(** X9: the keys of the map, the directory names, play no part: two maps
    with the same manifests in the same order give the same extensions and
    the same tag and feature sets. *)
Theorem directory_names_do_not_matter manifests1 manifests2 releases :
  map snd manifests1 = map snd manifests2 ->
  buildExtensions manifests1 releases = buildExtensions manifests2 releases
  /\ collectTagsAndFeatures manifests1 = collectTagsAndFeatures manifests2.
Proof.
  intros H. split.
  - unfold buildExtensions. f_equal. f_equal.
    rewrite <- (map_map snd (fun m => buildExtension m releases) manifests1).
    rewrite <- (map_map snd (fun m => buildExtension m releases) manifests2).
    rewrite H. reflexivity.
  - unfold collectTagsAndFeatures.
    generalize {| TagsAndFeatures.allTags := []; TagsAndFeatures.allFeatures := [] |}.
    revert manifests2 H.
    induction manifests1 as [|[k1 m1] l1 IH]; intros [|[k2 m2] l2] H acc;
      try discriminate; [reflexivity|].
    cbn [map snd] in H. injection H as -> H. cbn [fold_left].
    unfold collectStep at 2 4. cbn [snd]. apply IH, H.
Qed.

(** X16: further releases never take an extension away: an extension emitted
    for a list of releases is emitted under the same name, with at least as
    many versions, when releases are appended. *)
Theorem more_releases_keep_extensions manifests releases more e :
  In e (buildExtensions manifests releases) ->
  exists e',
    In e' (buildExtensions manifests (releases ++ more)%list)
    /\ Extension.name e' = Extension.name e
    /\ List.length (Extension.versions e) <= List.length (Extension.versions e').
Proof.
  intros He. apply In_buildExtensions in He.
  destruct He as (key & manifest & Hin & Hb).
  destruct (buildExtension_Some _ _ _ Hb) as (V & N & S & Hne & _).
  destruct (buildExtension manifest (releases ++ more)%list) as [e'|] eqn:B.
  - exists e'. split; [apply In_buildExtensions; eauto|].
    destruct (buildExtension_Some _ _ _ B) as (_ & N' & S' & _).
    split; [congruence|].
    rewrite S, S', !sortBy_length, parsedReleases_app, length_app. lia.
  - apply buildExtension_None in B. destruct B as [B|B]; [contradiction|].
    rewrite parsedReleases_app in B. apply app_eq_nil in B. destruct B as [B _].
    rewrite S, B in Hne. contradiction.
Qed.

Section NamesFurther.
Context {collationLaws : ConsistentCollation rt}.

(** X10: extensions whose names collate equal, two manifests declaring the
    same name for one, are all emitted and keep the order of their
    manifests. *)
Theorem equal_names_keep_manifest_order manifests releases x :
  filter (fun e => byName x e =? 0)%Z (buildExtensions manifests releases)
  = filter (fun e => byName x e =? 0)%Z
      (keep (map (fun entry => buildExtension (snd entry) releases) manifests)).
Proof.
  unfold buildExtensions.
  apply (sortBy_stable byName (fun _ => True)); auto.
  - intros a b _ _. apply localeCompare_antisym.
  - intros a b c _ _ _. apply localeCompare_trans.
  - rewrite Forall_forall. auto.
Qed.

(** X13: when no two emitted extensions have names that collate equal, the
    result does not depend on the order of the manifests in the map. *)
Theorem manifest_order_does_not_matter manifests manifests' releases :
  Permutation manifests manifests' ->
  (forall a b,
     In a (buildExtensions manifests releases) ->
     In b (buildExtensions manifests releases) ->
     byName a b = 0%Z -> a = b) ->
  buildExtensions manifests' releases = buildExtensions manifests releases.
Proof.
  intros Hp ties. symmetry.
  assert (sorted : forall ms, StronglySorted (notAfter byName) (buildExtensions ms releases)).
  { intros ms. unfold buildExtensions.
    apply (sortBy_sorted byName (fun _ => True)).
    - intros a b _ _. apply localeCompare_antisym.
    - intros a b c _ _ _. apply localeCompare_trans.
    - rewrite Forall_forall. auto. }
  apply (sorted_perm_unique byName); auto.
  - intros a b. apply localeCompare_antisym.
  - unfold buildExtensions. rewrite !sortBy_perm.
    apply keep_perm, Permutation_map, Hp.
Qed.

End NamesFurther.

End BuildExtensionsFurther.

(** ** buildOutput and the driver *)

(** Sets with the same members are sorted into the same array. *)
Lemma sort_strings_same_members s s' :
  NoDup s -> NoDup s' -> (forall x, In x s <-> In x s') ->
  sortBy defaultCompare s = sortBy defaultCompare s'.
Proof.
  intros D D' M.
  assert (sorted : forall l, StronglySorted (notAfter defaultCompare)
                               (sortBy defaultCompare l)).
  { intros l. apply (sortBy_sorted defaultCompare (fun _ => True)).
    - intros a b _ _. apply defaultCompare_antisym.
    - intros a b c _ _ _. apply defaultCompare_trans.
    - rewrite Forall_forall. auto. }
  apply (sorted_perm_unique defaultCompare); auto.
  - intros a b. apply defaultCompare_antisym.
  - intros a b _ _ E. unfold defaultCompare in E.
    apply String.compare_eq_iff. destruct (String.compare a b); [reflexivity| |];
      discriminate.
  - rewrite !sortBy_perm. apply NoDup_Permutation; assumption.
Qed.

(** X12: [buildOutput] does not depend on the order in which the sets were
    filled: sets with the same members give the same output. *)
Theorem buildOutput_ignores_insertion_order
  extensions config allTags allTags' allFeatures allFeatures' :
  NoDup allTags -> NoDup allTags' -> NoDup allFeatures -> NoDup allFeatures' ->
  (forall t, In t allTags <-> In t allTags') ->
  (forall f, In f allFeatures <-> In f allFeatures') ->
  buildOutput extensions config allTags allFeatures
  = buildOutput extensions config allTags' allFeatures'.
Proof.
  intros DT DT' DF DF' MT MF. unfold buildOutput.
  rewrite (sort_strings_same_members allTags allTags' DT DT' MT),
          (sort_strings_same_members allFeatures allFeatures' DF DF' MF).
  reflexivity.
Qed.

Section Driver.
Context {rt : Runtime}.

(** X11: in the gallery the script assembles, every tag of every listed
    extension is in the gallery's [tags]. *)
Theorem extension_tags_are_in_the_vocabulary config manifests allReleases e t :
  In e (GalleryOutput.extensions (generateGallery config manifests allReleases)) ->
  In t (Extension.tags e) ->
  In t (GalleryOutput.tags (generateGallery config manifests allReleases)).
Proof.
  unfold generateGallery, buildOutput.
  cbn [GalleryOutput.extensions GalleryOutput.tags].
  intros He Ht. apply In_buildExtensions in He.
  destruct He as (key & manifest & Hin & Hb).
  destruct (buildExtension_fields _ _ _ Hb) as (_ & _ & _ & _ & G & _).
  cbv zeta in G. rewrite G in Ht.
  apply (Permutation_in _ (Permutation_sym (sortBy_perm _ _))).
  unfold collectTagsAndFeatures.
  destruct (collect_fold manifests
              {| TagsAndFeatures.allTags := []; TagsAndFeatures.allFeatures := [] |})
    as (T & _).
  cbv zeta in T. apply T. right.
  destruct (ExtensionInfo.tags (ExtensionManifest.extension manifest)) as [ts|] eqn:E;
    [|destruct Ht].
  exists key, manifest, ts. auto.
Qed.

(** X17: the [tags] and [requiredFeatures] of the gallery are read off the
    manifests alone: they are the same for any releases and for any order of
    the manifests. *)
Theorem vocabulary_depends_on_manifests_only
  config manifests manifests' allReleases allReleases' :
  Permutation manifests manifests' ->
  GalleryOutput.tags (generateGallery config manifests' allReleases')
  = GalleryOutput.tags (generateGallery config manifests allReleases)
  /\ GalleryOutput.requiredFeatures (generateGallery config manifests' allReleases')
     = GalleryOutput.requiredFeatures (generateGallery config manifests allReleases).
Proof.
  intros Hp. unfold generateGallery, collectTagsAndFeatures, buildOutput.
  cbn [GalleryOutput.tags GalleryOutput.requiredFeatures].
  destruct (collect_fold manifests
              {| TagsAndFeatures.allTags := []; TagsAndFeatures.allFeatures := [] |})
    as (T & F & DT & DF).
  destruct (collect_fold manifests'
              {| TagsAndFeatures.allTags := []; TagsAndFeatures.allFeatures := [] |})
    as (T' & F' & DT' & DF').
  cbv zeta in *.
  cbn [TagsAndFeatures.allTags TagsAndFeatures.allFeatures] in DT, DF, DT', DF'.
  split; apply sort_strings_same_members;
    try (apply DT; constructor); try (apply DF; constructor);
    try (apply DT'; constructor); try (apply DF'; constructor).
  - intros t. rewrite T, T'. cbn [TagsAndFeatures.allTags In].
    split; intros [[]|(k & m & l & Hin & R)]; right; exists k, m, l;
      (split; [|exact R]).
    + apply (Permutation_in _ (Permutation_sym Hp)), Hin.
    + apply (Permutation_in _ Hp), Hin.
  - intros t. rewrite F, F'. cbn [TagsAndFeatures.allFeatures In].
    split; intros [[]|(k & m & l & Hin & R)]; right; exists k, m, l;
      (split; [|exact R]).
    + apply (Permutation_in _ (Permutation_sym Hp)), Hin.
    + apply (Permutation_in _ Hp), Hin.
Qed.

Lemma totalVersions_from start extensions :
  fold_left (fun sum e => sum + List.length (Extension.versions e)) extensions start
  = start + totalVersions extensions.
Proof.
  unfold totalVersions. revert start.
  induction extensions as [|e l IH]; intros start; cbn [fold_left]; [lia|].
  rewrite IH, (IH (0 + _)). lia.
Qed.

Lemma totalVersions_bounds k extensions :
  (forall e, In e extensions -> 1 <= List.length (Extension.versions e) <= k) ->
  List.length extensions <= totalVersions extensions <= List.length extensions * k.
Proof.
  induction extensions as [|e l IH]; intros H.
  - cbn. lia.
  - unfold totalVersions. cbn [fold_left List.length].
    rewrite totalVersions_from.
    pose proof (H e (or_introl eq_refl)).
    assert (List.length l <= totalVersions l <= List.length l * k)
      by (apply IH; intros x Hx; apply H; right; exact Hx).
    lia.
Qed.

(** X15: the two totals of the log line: the number of versions is at least
    the number of extensions, and at most the number of manifests times the
    number of releases. *)
Theorem log_line_totals manifests allReleases :
  let extensions := buildExtensions manifests allReleases in
  List.length extensions <= totalVersions extensions
  /\ totalVersions extensions <= List.length manifests * List.length allReleases.
Proof.
  cbv zeta.
  assert (B : forall e, In e (buildExtensions manifests allReleases) ->
                1 <= List.length (Extension.versions e) <= List.length allReleases).
  { intros e He. apply In_buildExtensions in He.
    destruct He as (key & manifest & _ & Hb).
    destruct (buildExtension_Some _ _ _ Hb) as (_ & _ & S & Hne & _).
    split.
    - destruct (Extension.versions e); [congruence | cbn; lia].
    - rewrite S, sortBy_length. apply parsedReleases_length. }
  destruct (totalVersions_bounds _ _ B) as [L U]. split; [exact L|].
  assert (List.length (buildExtensions manifests allReleases) <= List.length manifests).
  { unfold buildExtensions. rewrite sortBy_length.
    etransitivity; [apply keep_length|]. rewrite length_map. reflexivity. }
  nia.
Qed.

End Driver.

Lemma requireEnv_Returned env name value :
  requireEnv env name = Returned value <->
  env name = Some value /\ value <> EmptyString.
Proof.
  unfold requireEnv. destruct (env name) as [v|].
  - destruct (String.eqb_spec v EmptyString) as [->|N].
    + split; [discriminate|]. intros [[= <-] H]. contradiction.
    + split; [intros [= <-]; auto|]. intros [[= <-] _]. reflexivity.
  - split; [discriminate|]. intros [H _]. discriminate.
Qed.

Lemma requireEnv_Thrown env name message :
  requireEnv env name = Thrown message <->
  isSet env name = false /\ message = name ++ " environment variable is required".
Proof.
  unfold requireEnv, isSet. destruct (env name) as [v|].
  - destruct (v =? EmptyString); cbn [negb].
    + split; [intros [= <-]; auto | intros [_ ->]; reflexivity].
    + split; [discriminate | intros [H _]; discriminate].
  - split; [intros [= <-]; auto | intros [_ ->]; reflexivity].
Qed.

Lemma requireEnv_isSet env name :
  isSet env name = true -> exists value, requireEnv env name = Returned value.
Proof.
  unfold requireEnv, isSet. destruct (env name) as [v|]; [|discriminate].
  destruct (v =? EmptyString); [discriminate | eauto].
Qed.

(** X14: the script gets its configuration exactly when the four variables
    are defined and not empty; otherwise it throws, naming the first of
    [EXTENSIONS_DIR], [GALLERY_CONFIG], [EXTENSIONS_JSON],
    [GITHUB_REPOSITORY], in that order, that is undefined or empty. *)
Theorem readConfiguration_outcome env :
  (forall c, readConfiguration env = Returned c <->
     (env "EXTENSIONS_DIR" = Some (Configuration.extensionsDir c)
      /\ Configuration.extensionsDir c <> EmptyString)
     /\ (env "GALLERY_CONFIG" = Some (Configuration.galleryConfigPath c)
         /\ Configuration.galleryConfigPath c <> EmptyString)
     /\ (env "EXTENSIONS_JSON" = Some (Configuration.outputPath c)
         /\ Configuration.outputPath c <> EmptyString)
     /\ (env "GITHUB_REPOSITORY" = Some (Configuration.repo c)
         /\ Configuration.repo c <> EmptyString))
  /\ (forall message, readConfiguration env = Thrown message <->
        exists before name after,
          requiredVariables = (before ++ name :: after)%list
          /\ forallb (isSet env) before = true
          /\ isSet env name = false
          /\ message = name ++ " environment variable is required").
Proof.
  split.
  - intros [d g o r]. cbn [Configuration.extensionsDir Configuration.galleryConfigPath
                          Configuration.outputPath Configuration.repo].
    rewrite <- !requireEnv_Returned. unfold readConfiguration.
    destruct (requireEnv env "EXTENSIONS_DIR"); [|split; [discriminate|intros (H & _); discriminate]].
    destruct (requireEnv env "GALLERY_CONFIG");
      [|split; [discriminate|intros (_ & H & _); discriminate]].
    destruct (requireEnv env "EXTENSIONS_JSON");
      [|split; [discriminate|intros (_ & _ & H & _); discriminate]].
    destruct (requireEnv env "GITHUB_REPOSITORY");
      [|split; [discriminate|intros (_ & _ & _ & H); discriminate]].
    split; [intros [= -> -> -> ->]; auto|].
    intros ([= ->] & [= ->] & [= ->] & [= ->]). reflexivity.
  - intros message. unfold readConfiguration, requiredVariables. split.
    + destruct (requireEnv env "EXTENSIONS_DIR") as [d|m1] eqn:R1.
      2:{ intros [= <-]. apply requireEnv_Thrown in R1. destruct R1 as [S1 ->].
          exists [], "EXTENSIONS_DIR", ["GALLERY_CONFIG"; "EXTENSIONS_JSON"; "GITHUB_REPOSITORY"].
          auto. }
      assert (S1 : isSet env "EXTENSIONS_DIR" = true).
      { destruct (isSet env "EXTENSIONS_DIR") eqn:S; [reflexivity|].
        assert (T : requireEnv env "EXTENSIONS_DIR"
                    = Thrown ("EXTENSIONS_DIR" ++ " environment variable is required"))
          by (apply requireEnv_Thrown; auto).
        congruence. }
      destruct (requireEnv env "GALLERY_CONFIG") as [g|m2] eqn:R2.
      2:{ intros [= <-]. apply requireEnv_Thrown in R2. destruct R2 as [S2 ->].
          exists ["EXTENSIONS_DIR"], "GALLERY_CONFIG", ["EXTENSIONS_JSON"; "GITHUB_REPOSITORY"].
          cbn [forallb]. rewrite S1. auto. }
      assert (S2 : isSet env "GALLERY_CONFIG" = true).
      { destruct (isSet env "GALLERY_CONFIG") eqn:S; [reflexivity|].
        assert (T : requireEnv env "GALLERY_CONFIG"
                    = Thrown ("GALLERY_CONFIG" ++ " environment variable is required"))
          by (apply requireEnv_Thrown; auto).
        congruence. }
      destruct (requireEnv env "EXTENSIONS_JSON") as [o|m3] eqn:R3.
      2:{ intros [= <-]. apply requireEnv_Thrown in R3. destruct R3 as [S3 ->].
          exists ["EXTENSIONS_DIR"; "GALLERY_CONFIG"], "EXTENSIONS_JSON", ["GITHUB_REPOSITORY"].
          cbn [forallb]. rewrite S1, S2. auto. }
      assert (S3 : isSet env "EXTENSIONS_JSON" = true).
      { destruct (isSet env "EXTENSIONS_JSON") eqn:S; [reflexivity|].
        assert (T : requireEnv env "EXTENSIONS_JSON"
                    = Thrown ("EXTENSIONS_JSON" ++ " environment variable is required"))
          by (apply requireEnv_Thrown; auto).
        congruence. }
      destruct (requireEnv env "GITHUB_REPOSITORY") as [r|m4] eqn:R4; [discriminate|].
      intros [= <-]. apply requireEnv_Thrown in R4. destruct R4 as [S4 ->].
      exists ["EXTENSIONS_DIR"; "GALLERY_CONFIG"; "EXTENSIONS_JSON"], "GITHUB_REPOSITORY", [].
      cbn [forallb]. rewrite S1, S2, S3. auto.
    + intros (before & name & after & E & B & S & ->).
      assert (T : requireEnv env name
                  = Thrown (name ++ " environment variable is required"))
        by (apply requireEnv_Thrown; auto).
      destruct before as [|b1 [|b2 [|b3 [|b4 before]]]]; cbn [app] in E;
        injection E; intros; subst; cbn [forallb] in B;
        repeat (apply andb_prop in B; destruct B as [?S B]).
      * rewrite T. reflexivity.
      * destruct (requireEnv_isSet _ _ S0) as (v1 & ->). rewrite T. reflexivity.
      * destruct (requireEnv_isSet _ _ S0) as (v1 & ->).
        destruct (requireEnv_isSet _ _ S1) as (v2 & ->). rewrite T. reflexivity.
      * destruct (requireEnv_isSet _ _ S0) as (v1 & ->).
        destruct (requireEnv_isSet _ _ S1) as (v2 & ->).
        destruct (requireEnv_isSet _ _ S2) as (v3 & ->). rewrite T. reflexivity.
      * destruct before; discriminate.
Qed.

(** ** The further properties on concrete inputs *)

Lemma result_url_witness :
  parseExtensionRelease (rt := referenceRuntime)
    {| GitHubRelease.tagName := "my-ext@v1.0.0";
       GitHubRelease.publishedAt := "2024-06-01T00:00:00Z";
       GitHubRelease.assets :=
         [{| GitHubReleaseAsset.name := "my-ext.zip";
             GitHubReleaseAsset.url := "https://example.com/my-ext.zip" |};
          {| GitHubReleaseAsset.name := "my-ext.tar.gz";
             GitHubReleaseAsset.url := "https://example.com/my-ext.tar.gz" |};
          {| GitHubReleaseAsset.name := "my-ext.tar.gz";
             GitHubReleaseAsset.url := "https://example.com/second.tar.gz" |}];
       GitHubRelease.body := EmptyString |} "my-ext" sampleManifest
  = Some (sampleVersion "1.0.0")
  /\ ExtensionVersion.released (sampleVersion "1.0.0") = "2024-06-01T00:00:00Z".
Proof.
  assert (H : parseExtensionRelease (rt := referenceRuntime)
    {| GitHubRelease.tagName := "my-ext@v1.0.0";
       GitHubRelease.publishedAt := "2024-06-01T00:00:00Z";
       GitHubRelease.assets :=
         [{| GitHubReleaseAsset.name := "my-ext.zip";
             GitHubReleaseAsset.url := "https://example.com/my-ext.zip" |};
          {| GitHubReleaseAsset.name := "my-ext.tar.gz";
             GitHubReleaseAsset.url := "https://example.com/my-ext.tar.gz" |};
          {| GitHubReleaseAsset.name := "my-ext.tar.gz";
             GitHubReleaseAsset.url := "https://example.com/second.tar.gz" |}];
       GitHubRelease.body := EmptyString |} "my-ext" sampleManifest
  = Some (sampleVersion "1.0.0")) by (vm_compute; reflexivity).
  split; [exact H|].
  apply (result_url_of_first_matching_asset (rt := referenceRuntime) _ _ _ _ H).
Defined.

Lemma result_version_witness :
  parseExtensionRelease (rt := referenceRuntime)
    (sampleRelease "my-ext@v1.0.0@v2" EmptyString) "my-ext" sampleManifest
  = Some (sampleVersion "1.0.0")
  /\ afterFirst "@v" (ExtensionVersion.version (sampleVersion "1.0.0")) = None.
Proof.
  assert (H : parseExtensionRelease (rt := referenceRuntime)
                (sampleRelease "my-ext@v1.0.0@v2" EmptyString) "my-ext" sampleManifest
              = Some (sampleVersion "1.0.0")) by (vm_compute; reflexivity).
  split; [exact H|].
  apply (result_version_valid_without_marker (rt := referenceRuntime) _ _ _ _ H).
Defined.

Lemma tag_parses_back_witness :
  afterFirst "@v" "my-ext" = None
  /\ afterFirst "@v" "1.0.0" = None
  /\ exists v,
       parseExtensionRelease (rt := referenceRuntime)
         (sampleRelease "my-ext@v1.0.0" EmptyString) "my-ext" sampleManifest = Some v
       /\ ExtensionVersion.version v = "1.0.0"
       /\ ExtensionVersion.url v = "https://example.com/my-ext.tar.gz"
       /\ ExtensionVersion.released v = "2024-06-01T00:00:00Z".
Proof.
  split; [reflexivity|]. split; [reflexivity|].
  apply (tag_of_name_and_version_parses_back (rt := referenceRuntime)
           (sampleRelease "my-ext@v1.0.0" EmptyString) "my-ext" sampleManifest "1.0.0"
           {| GitHubReleaseAsset.name := "my-ext.tar.gz";
              GitHubReleaseAsset.url := "https://example.com/my-ext.tar.gz" |});
    try reflexivity.
  vm_compute. discriminate.
Defined.

Lemma release_belongs_witness :
  afterFirst "@v" "my-ext" = None
  /\ parseExtensionRelease (rt := referenceRuntime)
       (sampleRelease "my-ext@v1.0.0" EmptyString) "my-ext" sampleManifest
     = Some (sampleVersion "1.0.0")
  /\ "my-ext" = "my-ext".
Proof.
  split; [reflexivity|]. split; [vm_compute; reflexivity|].
  apply (release_belongs_to_one_name (rt := referenceRuntime)
           (sampleRelease "my-ext@v1.0.0" EmptyString)
           "my-ext" sampleManifest (sampleVersion "1.0.0")
           "my-ext" sampleManifest (sampleVersion "1.0.0"));
    vm_compute; reflexivity.
Defined.

Lemma emitted_fields_witness :
  In (sampleExtension "my-ext" [sampleVersion "1.0.0"; sampleVersion "0.9.0"]
        (sampleVersion "1.0.0"))
     (buildExtensions (rt := referenceRuntime) [("my-ext", sampleManifest)] sampleReleases)
  /\ Extension.category
       (sampleExtension "my-ext" [sampleVersion "1.0.0"; sampleVersion "0.9.0"]
          (sampleVersion "1.0.0"))
     <> Some EmptyString.
Proof.
  assert (H : In (sampleExtension "my-ext" [sampleVersion "1.0.0"; sampleVersion "0.9.0"]
                    (sampleVersion "1.0.0"))
                 (buildExtensions (rt := referenceRuntime)
                    [("my-ext", sampleManifest)] sampleReleases))
    by (vm_compute; left; reflexivity).
  split; [exact H|].
  destruct (emitted_fields_from_manifest (rt := referenceRuntime) _ _ _ H)
    as (key & manifest & _ & _ & _ & _ & _ & _ & _ & _ & C).
  exact C.
Defined.

Lemma emitted_versions_witness :
  In (sampleExtension "my-ext" [sampleVersion "1.0.0"; sampleVersion "0.9.0"]
        (sampleVersion "1.0.0"))
     (buildExtensions (rt := referenceRuntime) [("my-ext", sampleManifest)] sampleReleases)
  /\ In (sampleVersion "0.9.0")
        (Extension.versions
           (sampleExtension "my-ext" [sampleVersion "1.0.0"; sampleVersion "0.9.0"]
              (sampleVersion "1.0.0")))
  /\ exists release asset,
       In release sampleReleases
       /\ startsWith (GitHubRelease.tagName release) ("my-ext" ++ "@v") = true
       /\ ExtensionVersion.released (sampleVersion "0.9.0")
          = GitHubRelease.publishedAt release
       /\ In asset (GitHubRelease.assets release)
       /\ GitHubReleaseAsset.name asset = "my-ext" ++ ".tar.gz"
       /\ ExtensionVersion.url (sampleVersion "0.9.0") = GitHubReleaseAsset.url asset.
Proof.
  assert (H : In (sampleExtension "my-ext" [sampleVersion "1.0.0"; sampleVersion "0.9.0"]
                    (sampleVersion "1.0.0"))
                 (buildExtensions (rt := referenceRuntime)
                    [("my-ext", sampleManifest)] sampleReleases))
    by (vm_compute; left; reflexivity).
  split; [exact H|]. split; [right; left; reflexivity|].
  apply (emitted_versions_come_from_releases (rt := referenceRuntime) _ _ _ _ H).
  right; left; reflexivity.
Defined.

Lemma unparsed_release_witness :
  parseExtensionRelease (rt := referenceRuntime)
    (makeRelease "other-ext" "other-ext@v1.0.0" EmptyString) "my-ext" sampleManifest = None
  /\ buildExtensions (rt := referenceRuntime) [("my-ext", sampleManifest)]
       ([sampleRelease "my-ext@v0.9.0" EmptyString]
        ++ makeRelease "other-ext" "other-ext@v1.0.0" EmptyString
           :: [sampleRelease "my-ext@v1.0.0" EmptyString])%list
     = buildExtensions (rt := referenceRuntime) [("my-ext", sampleManifest)]
         ([sampleRelease "my-ext@v0.9.0" EmptyString]
          ++ [sampleRelease "my-ext@v1.0.0" EmptyString])%list.
Proof.
  split; [vm_compute; reflexivity|].
  apply (unparsed_release_can_be_dropped (rt := referenceRuntime)).
  intros key manifest [[= _ <-]|[]]. vm_compute. reflexivity.
Defined.

Lemma directory_names_witness :
  map snd [("first-directory", sampleManifest)] = map snd [("second-directory", sampleManifest)]
  /\ buildExtensions (rt := referenceRuntime) [("first-directory", sampleManifest)]
       sampleReleases
     = buildExtensions (rt := referenceRuntime) [("second-directory", sampleManifest)]
         sampleReleases
  /\ collectTagsAndFeatures [("first-directory", sampleManifest)]
     = collectTagsAndFeatures [("second-directory", sampleManifest)].
Proof.
  split; [reflexivity|].
  apply (directory_names_do_not_matter (rt := referenceRuntime)). reflexivity.
Defined.

Lemma more_releases_witness :
  In (sampleExtension "my-ext" [sampleVersion "0.9.0"] (sampleVersion "0.9.0"))
     (buildExtensions (rt := referenceRuntime) [("my-ext", sampleManifest)]
        [sampleRelease "my-ext@v0.9.0" EmptyString])
  /\ exists e',
       In e' (buildExtensions (rt := referenceRuntime) [("my-ext", sampleManifest)]
                ([sampleRelease "my-ext@v0.9.0" EmptyString]
                 ++ [sampleRelease "my-ext@v1.0.0" EmptyString])%list)
       /\ Extension.name e' = "my-ext"
       /\ 1 <= List.length (Extension.versions e').
Proof.
  assert (H : In (sampleExtension "my-ext" [sampleVersion "0.9.0"] (sampleVersion "0.9.0"))
                 (buildExtensions (rt := referenceRuntime) [("my-ext", sampleManifest)]
                    [sampleRelease "my-ext@v0.9.0" EmptyString]))
    by (vm_compute; left; reflexivity).
  split; [exact H|].
  apply (more_releases_keep_extensions (rt := referenceRuntime) _ _
           [sampleRelease "my-ext@v1.0.0" EmptyString] _ H).
Defined.

Lemma equal_names_witness :
  filter (fun e => byName (rt := referenceRuntime)
                     (sampleExtension "my-ext" [] (sampleVersion "1.0.0")) e =? 0)%Z
    (buildExtensions (rt := referenceRuntime)
       [("one", sampleManifest); ("two", sampleManifest)] sampleReleases)
  = filter (fun e => byName (rt := referenceRuntime)
                       (sampleExtension "my-ext" [] (sampleVersion "1.0.0")) e =? 0)%Z
      (keep (map (fun entry => buildExtension (rt := referenceRuntime) (snd entry)
                                 sampleReleases)
                 [("one", sampleManifest); ("two", sampleManifest)])).
Proof.
  apply (equal_names_keep_manifest_order (rt := referenceRuntime)
           (collationLaws := referenceCollationLaws)).
Defined.

Lemma manifest_order_witness :
  Permutation zebraAlphaManifests (rev zebraAlphaManifests)
  /\ buildExtensions (rt := referenceRuntime) (rev zebraAlphaManifests) zebraAlphaReleases
     = buildExtensions (rt := referenceRuntime) zebraAlphaManifests zebraAlphaReleases.
Proof.
  split; [apply Permutation_rev|].
  apply (manifest_order_does_not_matter (rt := referenceRuntime)
           (collationLaws := referenceCollationLaws));
    [apply Permutation_rev|].
  intros a b Ha Hb. vm_compute in Ha, Hb.
  destruct Ha as [<-|[<-|[]]], Hb as [<-|[<-|[]]]; intros E;
    try reflexivity; vm_compute in E; discriminate E.
Defined.

Lemma buildOutput_order_witness :
  NoDup ["z-tag"; "a-tag"] /\ NoDup ["a-tag"; "z-tag"]
  /\ buildOutput [] {| GalleryConfig.categories := [] |} ["z-tag"; "a-tag"] ["gpu"]
     = buildOutput [] {| GalleryConfig.categories := [] |} ["a-tag"; "z-tag"] ["gpu"].
Proof.
  assert (D1 : NoDup ["z-tag"; "a-tag"]).
  { constructor; [intros [E|[]]; discriminate E | constructor; [intros [] | constructor]]. }
  assert (D2 : NoDup ["a-tag"; "z-tag"]).
  { constructor; [intros [E|[]]; discriminate E | constructor; [intros [] | constructor]]. }
  assert (D3 : NoDup ["gpu"]) by (constructor; [intros [] | constructor]).
  split; [exact D1|]. split; [exact D2|].
  apply buildOutput_ignores_insertion_order; try assumption.
  - intros t. cbn [In]. tauto.
  - intros f. tauto.
Defined.

Lemma extension_tags_witness :
  In "python"
     (GalleryOutput.tags
        (generateGallery (rt := referenceRuntime) {| GalleryConfig.categories := [] |}
           [("my-ext", makeManifest "my-ext" "1.0.0" None None (Some ["python"; "data"]) None)]
           sampleReleases)).
Proof.
  assert (H : exists e,
            In e (GalleryOutput.extensions
                    (generateGallery (rt := referenceRuntime)
                       {| GalleryConfig.categories := [] |}
                       [("my-ext",
                         makeManifest "my-ext" "1.0.0" None None (Some ["python"; "data"])
                           None)]
                       sampleReleases))
            /\ In "python" (Extension.tags e)).
  { eexists. split; [vm_compute; left; reflexivity|]. left. reflexivity. }
  destruct H as (e & He & Ht).
  apply (extension_tags_are_in_the_vocabulary (rt := referenceRuntime) _ _ _ e "python" He Ht).
Defined.

Lemma vocabulary_witness :
  Permutation zebraAlphaManifests (rev zebraAlphaManifests)
  /\ GalleryOutput.tags
       (generateGallery (rt := referenceRuntime) {| GalleryConfig.categories := [] |}
          (rev zebraAlphaManifests) [])
     = GalleryOutput.tags
         (generateGallery (rt := referenceRuntime) {| GalleryConfig.categories := [] |}
            zebraAlphaManifests zebraAlphaReleases).
Proof.
  split; [apply Permutation_rev|].
  apply (vocabulary_depends_on_manifests_only (rt := referenceRuntime)).
  apply Permutation_rev.
Defined.

(** The script's configuration from a full, a partial and an empty-valued
    environment. *)
Example configuration_cases :
  readConfiguration
    (envOf [("EXTENSIONS_DIR", "extensions"); ("GALLERY_CONFIG", "gallery.json");
            ("EXTENSIONS_JSON", "extensions.json"); ("GITHUB_REPOSITORY", "posit/x")])
  = Returned {| Configuration.extensionsDir := "extensions";
                Configuration.galleryConfigPath := "gallery.json";
                Configuration.outputPath := "extensions.json";
                Configuration.repo := "posit/x" |}
  /\ readConfiguration (envOf [("EXTENSIONS_DIR", "extensions")])
     = Thrown "GALLERY_CONFIG environment variable is required"
  /\ readConfiguration
       (envOf [("EXTENSIONS_DIR", EmptyString); ("GALLERY_CONFIG", "gallery.json")])
     = Thrown "EXTENSIONS_DIR environment variable is required".
Proof. repeat split. Qed.
